(** * CourseSys: the client-side store (AppProvider)

    A shallow embedding of the store that [AppProvider] implements: the
    in-memory collections (teachers, assistants, courses, sessions), the
    optimistic mutators, the course statistics they keep up to date, the
    bulk import and the initial load, together with the remote calls each
    operation issues.

    Modelling decisions.
    - Records are JavaScript objects: finite maps from property names to
      values.  A property that is absent reads as [undefined].
    - A JavaScript number is [NaN], an infinity, or an exact rational.  The
      rounding of binary floating point and the sign of zero are not
      modelled; no statement below depends on a law of arithmetic.
    - Arrays and objects are compared by identity in JavaScript.  Identities
      are not tracked: [===] between two array or object values is [false].
      Identifiers are strings by the declared types, so this only concerns
      ill-typed records.
    - The conversions of strings and of objects to numbers, the stream of
      identifiers drawn from [crypto.randomUUID], and the answers of the
      remote service are given by the host ([Host]).
    - An operation is a computation over the state of the provider, the
      trace of what it issues and logs, and the exception it may end with.
      Operations run one after the other: the updater handed to [setState]
      is applied where the source calls it, and the awaits of two
      operations are not interleaved.
    - The text of the alert that follows a failed import is not built; the
      trace keeps the error it is built from. *)

From Stdlib Require Import QArith.
From stdpp Require Import base option list strings gmap.

Local Open Scope string_scope.
Local Open Scope list_scope.

(** ** Numbers *)

Inductive number :=
  | NaN
  | PosInf
  | NegInf
  | Finite (q : Q).

Definition zero : number := Finite 0.

Definition of_nat (n : nat) : number := Finite (Z.of_nat n # 1).

(** [a + b] on numbers. *)
Definition number_add (a b : number) : number :=
  match a, b with
  | NaN, _ | _, NaN => NaN
  | PosInf, NegInf | NegInf, PosInf => NaN
  | PosInf, _ | _, PosInf => PosInf
  | NegInf, _ | _, NegInf => NegInf
  | Finite x, Finite y => Finite (Qred (x + y))
  end.

(** [a === b] on numbers: [NaN] differs from everything, itself included. *)
Definition number_eq (a b : number) : bool :=
  match a, b with
  | PosInf, PosInf | NegInf, NegInf => true
  | Finite x, Finite y => Qeq_bool x y
  | _, _ => false
  end.

(** ToBoolean on numbers: [NaN] and zero are falsy. *)
Definition number_truthy (a : number) : bool :=
  match a with
  | NaN => false
  | PosInf | NegInf => true
  | Finite x => negb (Qeq_bool x 0)
  end.

(** The value denoted by [x.toFixed(2)] for a finite [x]: the magnitude is
    rounded to the nearest multiple of 1/100, a tie going to the larger
    one; from 1e21 on, [toFixed] prints the number itself. *)
Definition toFixed2 (x : Q) : Q :=
  let a := Z.abs (Qnum x) in
  let b := Z.pos (Qden x) in
  if (10 ^ 21 * b <=? a)%Z then x
  else Qred ((Z.sgn (Qnum x) * ((200 * a + b) / (2 * b)))%Z # 100).

(** [parseFloat(x.toFixed(2))]. *)
Definition parseFloat_toFixed2 (x : number) : number :=
  match x with
  | Finite q => Finite (toFixed2 q)
  | other => other
  end.

(** ** Values and records *)

Local Unset Elimination Schemes.

Inductive jsval :=
  | VUndefined
  | VNull
  | VBool (b : bool)
  | VNum (n : number)
  | VStr (s : string)
  | VArr (elems : list jsval)
  | VObj (props : list (string * jsval)).

Local Set Elimination Schemes.

Abbreviation obj := (gmap string jsval).

(** [o.k] *)
Definition get (o : obj) (k : string) : jsval := default VUndefined (o !! k).

(** ToBoolean *)
Definition truthy (v : jsval) : bool :=
  match v with
  | VUndefined | VNull => false
  | VBool b => b
  | VNum n => number_truthy n
  | VStr s => negb (String.eqb s "")
  | VArr _ | VObj _ => true
  end.

(** [a === b] *)
Definition strict_eq (a b : jsval) : bool :=
  match a, b with
  | VUndefined, VUndefined | VNull, VNull => true
  | VBool x, VBool y => Bool.eqb x y
  | VNum x, VNum y => number_eq x y
  | VStr x, VStr y => String.eqb x y
  | _, _ => false
  end.

(** [Array.isArray(v)] *)
Definition isArray (v : jsval) : bool :=
  match v with VArr _ => true | _ => false end.

(** ** The host *)

Inductive qfilter :=
  | FEq (column : string) (v : jsval)
  | FNeq (column : string) (v : jsval).

(** A call on the remote client: [supabase.from(table)] followed by
    [select('*')], [insert(rows)], [update(values).eq(..)] or
    [delete().eq(..)] / [delete().neq(..)]. *)
Inductive request :=
  | Select (table : string)
  | Insert (table : string) (rows : list (gmap string jsval))
  | Update (table : string) (values : gmap string jsval) (f : qfilter)
  | Delete (table : string) (f : qfilter).

(** What the client hands back, [{ data, error }]: rows and no error, or an
    error object and no data. *)
Inductive response :=
  | Ok (data : list (gmap string jsval))
  | Err (error : list (string * jsval)).

(** How an awaited call settles. *)
Inductive settled :=
  | Fulfilled (r : response)
  | Rejected (reason : jsval).

Class Host := {
  (** StringToNumber of ECMAScript *)
  StringToNumber : string → number;
  (** ToString of ToPrimitive, for arrays and objects *)
  ObjectToString : jsval → string;
  (** the result of the [k]-th call of [crypto.randomUUID] *)
  randomUUID : nat → string;
  (** how the [k]-th remote call settles *)
  remote : nat → request → settled
}.

(** ** The state of the provider *)

Record ScheduleParams := {
  startMonth : string;
  endMonth : string;
  selectedPersonId : string
}.

Record AppState := {
  teachers : list (gmap string jsval);
  assistants : list (gmap string jsval);
  courses : list (gmap string jsval);
  sessions : list (gmap string jsval);
  scheduleParams : ScheduleParams
}.

(** What an operation leaves behind besides the state. *)
Inductive event :=
  | Request (r : request)
  | ConsoleWarn (label : string) (e : jsval)
  | ConsoleError (label : string) (e : jsval)
  | SetTimeoutAlert (delay : nat) (e : jsval)
  | SetIsLoading (b : bool).

Record World := {
  state : AppState;
  isLoading : bool;
  trace : list event;
  (** remote calls issued so far *)
  calls : nat;
  (** identifiers drawn so far *)
  uuids : nat
}.

(** ** Asynchronous code: state, trace and exceptions *)

Definition M (A : Type) : Type := World → (A + jsval) * World.

#[global] Instance M_ret : MRet M := λ A a w, (inl a, w).

#[global] Instance M_bind : MBind M := λ A B f m w,
  match m w with
  | (inl a, w') => f a w'
  | (inr e, w') => (inr e, w')
  end.

Definition exec {A} (m : M A) (w : World) : World := snd (m w).

Definition throw {A} (e : jsval) : M A := λ w, (inr e, w).

(** [try { m } catch (error) { h error }] *)
Definition try_catch {A} (m : M A) (h : jsval → M A) : M A := λ w,
  match m w with
  | (inl a, w') => (inl a, w')
  | (inr e, w') => h e w'
  end.

(** [try { m } finally { f }] *)
Definition try_finally {A} (m : M A) (f : M unit) : M A := λ w,
  match m w with
  | (r, w') =>
      match f w' with
      | (inl _, w'') => (r, w'')
      | (inr e, w'') => (inr e, w'')
      end
  end.

(** [setState(prev => f prev)] *)
Definition setState (f : AppState → AppState) : M unit := λ w,
  (inl tt, {| state := f (state w); isLoading := isLoading w;
              trace := trace w; calls := calls w; uuids := uuids w |}).

Definition setIsLoading (b : bool) : M unit := λ w,
  (inl tt, {| state := state w; isLoading := b;
              trace := trace w ++ [SetIsLoading b]; calls := calls w;
              uuids := uuids w |}).

Definition emit (e : event) : M unit := λ w,
  (inl tt, {| state := state w; isLoading := isLoading w;
              trace := trace w ++ [e]; calls := calls w; uuids := uuids w |}).

(** Issue a remote call; the call is numbered, and recorded in the trace. *)
Definition issue (r : request) : M nat := λ w,
  (inl (calls w),
   {| state := state w; isLoading := isLoading w;
      trace := trace w ++ [Request r]; calls := S (calls w); uuids := uuids w |}).

Section Store.

Context `{Host}.

(** [Number(v)] *)
Definition Number (v : jsval) : number :=
  match v with
  | VUndefined => NaN
  | VNull => zero
  | VBool b => if b then of_nat 1 else zero
  | VNum n => n
  | VStr s => StringToNumber s
  | VArr _ | VObj _ => StringToNumber (ObjectToString v)
  end.

(** Wait for the call numbered [k] to settle. *)
Definition settle (k : nat) (r : request) : M response := λ w,
  match remote k r with
  | Fulfilled res => (inl res, w)
  | Rejected e => (inr e, w)
  end.

(** [await supabase.from(..)...] *)
Definition await (r : request) : M response :=
  k ← issue r; settle k r.

(** [await Promise.all([r1, r2, r3])]: the three calls are issued, then
    awaited; the first that rejects makes the whole reject. *)
Definition await_all3 (r1 r2 r3 : request) : M (response * response * response) :=
  k1 ← issue r1; k2 ← issue r2; k3 ← issue r3;
  a ← settle k1 r1; b ← settle k2 r2; c ← settle k3 r3;
  mret (a, b, c).

(** [if (error) console.error(label, error)] *)
Definition log_error (label : string) (r : response) : M unit :=
  match r with
  | Err e => emit (ConsoleError label (VObj e))
  | Ok _ => mret tt
  end.

(** [if (res.error) console.warn(label, res.error)] *)
Definition warn_error (label : string) (r : response) : M unit :=
  match r with
  | Err e => emit (ConsoleWarn label (VObj e))
  | Ok _ => mret tt
  end.

(** ** Course statistics *)

(** [sessions.filter(s => s.courseId === courseId)] *)
Definition courseSessions (sessions : list (gmap string jsval)) (courseId : jsval)
  : list (gmap string jsval) :=
  List.filter (λ s, strict_eq (get s "courseId") courseId) sessions.

(** [Number(s.durationHours) || 0] *)
Definition hours (s : gmap string jsval) : number :=
  let n := Number (get s "durationHours") in
  if number_truthy n then n else zero.

(** [courseSessions.reduce((sum, s) => sum + (Number(s.durationHours) || 0), 0)] *)
Definition totalHours (courseSessions : list (gmap string jsval)) : number :=
  fold_left (λ sum s, number_add sum (hours s)) courseSessions zero.

(** [{ ...c, sessionCount: cs.length, totalHours: parseFloat(total.toFixed(2)) }] *)
Definition withStats (c : gmap string jsval) (cs : list (gmap string jsval))
  : gmap string jsval :=
  <["totalHours" := VNum (parseFloat_toFixed2 (totalHours cs))]>
    (<["sessionCount" := VNum (of_nat (length cs))]> c).

Definition recalculateCourseStats
    (courses sessions : list (gmap string jsval)) (courseId : jsval)
  : list (gmap string jsval) :=
  map (λ c, if negb (strict_eq (get c "id") courseId) then c
            else withStats c (courseSessions sessions courseId)) courses.

(** The statistics of every course, from all sessions: the loop shared by
    the initial load and by the import of sessions. *)
Definition recalculateAll (courses sessions : list (gmap string jsval))
  : list (gmap string jsval) :=
  map (λ c, withStats c (courseSessions sessions (get c "id"))) courses.

(** ** Mutators: people *)

Definition set_teachers (st : AppState) (l : list (gmap string jsval)) : AppState :=
  {| teachers := l; assistants := assistants st; courses := courses st;
     sessions := sessions st; scheduleParams := scheduleParams st |}.

Definition set_assistants (st : AppState) (l : list (gmap string jsval)) : AppState :=
  {| teachers := teachers st; assistants := l; courses := courses st;
     sessions := sessions st; scheduleParams := scheduleParams st |}.

Definition set_courses (st : AppState) (l : list (gmap string jsval)) : AppState :=
  {| teachers := teachers st; assistants := assistants st; courses := l;
     sessions := sessions st; scheduleParams := scheduleParams st |}.

Definition set_sessions (st : AppState) (l : list (gmap string jsval)) : AppState :=
  {| teachers := teachers st; assistants := assistants st; courses := courses st;
     sessions := l; scheduleParams := scheduleParams st |}.

(** [l.map(x => x.id === e.id ? e : x)] *)
Definition replaceById (e : gmap string jsval) (l : list (gmap string jsval))
  : list (gmap string jsval) :=
  map (λ x, if strict_eq (get x "id") (get e "id") then e else x) l.

(** [l.filter(x => x[key] !== v)] *)
Definition removeBy (key : string) (v : jsval) (l : list (gmap string jsval))
  : list (gmap string jsval) :=
  List.filter (λ x, negb (strict_eq (get x key) v)) l.

(** [const { id, ...updates } = e; supabase.from(table).update(updates).eq('id', id)] *)
Definition updateRequest (table : string) (e : gmap string jsval) : request :=
  Update table (delete "id" e) (FEq "id" (get e "id")).

Definition addPerson (p : gmap string jsval) : M unit :=
  (if strict_eq (get p "type") (VStr "Teacher")
   then setState (λ prev, set_teachers prev (teachers prev ++ [p]))
   else setState (λ prev, set_assistants prev (assistants prev ++ [p])));;
  r ← await (Insert "people" [p]);
  log_error "Add Person Error (Cloud):" r.

Definition updatePerson (p : gmap string jsval) : M unit :=
  (if strict_eq (get p "type") (VStr "Teacher")
   then setState (λ prev, set_teachers prev (replaceById p (teachers prev)))
   else setState (λ prev, set_assistants prev (replaceById p (assistants prev))));;
  r ← await (updateRequest "people" p);
  log_error "Update Person Error (Cloud):" r.

Definition deletePerson (id : string) : M unit :=
  setState (λ prev,
    {| teachers := removeBy "id" (VStr id) (teachers prev);
       assistants := removeBy "id" (VStr id) (assistants prev);
       courses := courses prev; sessions := sessions prev;
       scheduleParams := scheduleParams prev |});;
  r ← await (Delete "people" (FEq "id" (VStr id)));
  log_error "Delete Person Error (Cloud):" r.

(** ** Mutators: courses *)



Definition deleteCourse (id : string) : M unit :=
  setState (λ prev,
    {| teachers := teachers prev; assistants := assistants prev;
       courses := removeBy "id" (VStr id) (courses prev);
       sessions := removeBy "courseId" (VStr id) (sessions prev);
       scheduleParams := scheduleParams prev |});;
  _ ← await (Delete "sessions" (FEq "courseId" (VStr id)));
  r ← await (Delete "courses" (FEq "id" (VStr id)));
  log_error "Delete Course Error (Cloud):" r.

(** ** Mutators: sessions *)

Definition addSession_state (s : gmap string jsval) (prev : AppState) : AppState :=
  let newSessions := sessions prev ++ [s] in
  let updatedCourses :=
    recalculateCourseStats (courses prev) newSessions (get s "courseId") in
  {| teachers := teachers prev; assistants := assistants prev;
     courses := updatedCourses; sessions := newSessions;
     scheduleParams := scheduleParams prev |}.

Definition addSession (s : gmap string jsval) : M unit :=
  setState (addSession_state s);;
  r ← await (Insert "sessions" [s]);
  log_error "Add Session Error (Cloud):" r.

Definition updateSession_state (s : gmap string jsval) (prev : AppState) : AppState :=
  let oldSession :=
    List.find (λ x, strict_eq (get x "id") (get s "id")) (sessions prev) in
  let newSessions := replaceById s (sessions prev) in
  let updatedCourses :=
    recalculateCourseStats (courses prev) newSessions (get s "courseId") in
  let updatedCourses :=
    match oldSession with
    | Some old =>
        if negb (strict_eq (get old "courseId") (get s "courseId"))
        then recalculateCourseStats updatedCourses newSessions (get old "courseId")
        else updatedCourses
    | None => updatedCourses
    end in
  {| teachers := teachers prev; assistants := assistants prev;
     courses := updatedCourses; sessions := newSessions;
     scheduleParams := scheduleParams prev |}.

Definition updateSession (s : gmap string jsval) : M unit :=
  setState (updateSession_state s);;
  r ← await (updateRequest "sessions" s);
  log_error "Update Session Error (Cloud):" r.

Definition deleteSession_state (id : string) (prev : AppState) : AppState :=
  let sessionToDelete :=
    List.find (λ s, strict_eq (get s "id") (VStr id)) (sessions prev) in
  let newSessions := removeBy "id" (VStr id) (sessions prev) in
  let updatedCourses :=
    match sessionToDelete with
    | Some old => recalculateCourseStats (courses prev) newSessions (get old "courseId")
    | None => courses prev
    end in
  {| teachers := teachers prev; assistants := assistants prev;
     courses := updatedCourses; sessions := newSessions;
     scheduleParams := scheduleParams prev |}.

Definition deleteSession (id : string) : M unit :=
  setState (deleteSession_state id);;
  r ← await (Delete "sessions" (FEq "id" (VStr id)));
  log_error "Delete Session Error (Cloud):" r.

(** ** Import *)

Inductive kind := Teachers | Assistants | Courses | Sessions.

Inductive mode := Append | Replace.

(** [Array.isArray(v) ? v : (v ? [v] : [])] *)
Definition toIdArray (v : jsval) : jsval :=
  if isArray v then v else if truthy v then VArr [v] else VArr [].

(** [v ? Number(v) : 0] *)
Definition toNumberOrZero (v : jsval) : jsval :=
  VNum (if truthy v then Number v else zero).

(** The body of [data.map(item => ...)]; [k] counts the identifiers drawn
    from [crypto.randomUUID] so far. *)
Definition processItem (type : kind) (item : gmap string jsval) (k : nat)
  : gmap string jsval * nat :=
  let '(id, k') :=
    if truthy (get item "id") then (get item "id", k)
    else (VStr (randomUUID k), S k) in
  let newItem : gmap string jsval := <["id" := id]> item in
  let newItem : gmap string jsval :=
    match type with
    | Courses | Sessions =>
        <["assistantIds" := toIdArray (get item "assistantIds")]>
          (<["teacherIds" := toIdArray (get item "teacherIds")]> newItem)
    | Teachers | Assistants =>
        delete "durationHours" (delete "sequence" (delete "totalHours"
          (delete "sessionCount" (delete "assistantIds"
            (delete "teacherIds" newItem)))))
    end in
  let newItem : gmap string jsval :=
    match type with
    | Sessions =>
        <["durationHours" := toNumberOrZero (get item "durationHours")]>
          (<["sequence" := toNumberOrZero (get item "sequence")]> newItem)
    | Courses => newItem
    | Teachers | Assistants => delete "durationHours" (delete "sequence" newItem)
    end in
  let newItem : gmap string jsval :=
    match type with
    | Courses => <["totalHours" := VNum zero]> (<["sessionCount" := VNum zero]> newItem)
    | _ => newItem
    end in
  (newItem, k').

Fixpoint processData (type : kind) (data : list (gmap string jsval)) (k : nat)
  : list (gmap string jsval) * nat :=
  match data with
  | [] => ([], k)
  | item :: rest =>
      let '(newItem, k1) := processItem type item k in
      let '(newItems, k2) := processData type rest k1 in
      (newItem :: newItems, k2)
  end.

(** [data.map(...)] as a step of the operation. *)
Definition preprocess (type : kind) (data : list (gmap string jsval))
  : M (list (gmap string jsval)) := λ w,
  let '(items, k) := processData type data (uuids w) in
  (inl items, {| state := state w; isLoading := isLoading w; trace := trace w;
                 calls := calls w; uuids := k |}).

Definition tableName (type : kind) : string :=
  match type with
  | Teachers | Assistants => "people"
  | Courses => "courses"
  | Sessions => "sessions"
  end.

(** [mode === 'replace' ? newItems : [...old, ...newItems]] *)
Definition merge (m : mode) (old newItems : list (gmap string jsval))
  : list (gmap string jsval) :=
  match m with Replace => newItems | Append => old ++ newItems end.

(** The updater handed to [setState] by [importData]. *)
Definition importData_state (type : kind) (m : mode)
    (processedData : list (gmap string jsval)) (prev : AppState) : AppState :=
  let newState :=
    match type with
    | Teachers => set_teachers prev (merge m (teachers prev) processedData)
    | Assistants => set_assistants prev (merge m (assistants prev) processedData)
    | Courses => set_courses prev (merge m (courses prev) processedData)
    | Sessions => set_sessions prev (merge m (sessions prev) processedData)
    end in
  match type with
  | Sessions =>
      set_courses newState (recalculateAll (courses newState) (sessions newState))
  | _ => newState
  end.

(** The [try] block of [importData]. *)
Definition importData_sync (type : kind) (m : mode)
    (processedData : list (gmap string jsval)) : M unit :=
  match m with
  | Replace =>
      if String.eqb (tableName type) "people" then
        let pType := match type with Teachers => "Teacher" | _ => "TA" end in
        _ ← await (Delete "people" (FEq "type" (VStr pType))); mret tt
      else
        _ ← await (Delete (tableName type)
                     (FNeq "id" (VStr "00000000-0000-0000-0000-000000000000")));
        mret tt
  | Append => mret tt
  end;;
  r ← await (Insert (tableName type) processedData);
  match r with
  | Err error => throw (VObj error)
  | Ok _ => mret tt
  end.

(** The [catch] block of [importData].  The text of the alert is derived
    from the error; the event keeps the error itself. *)
Definition importData_failed (error : jsval) : M unit :=
  emit (ConsoleError "Cloud Sync Error (Import):" error);;
  emit (SetTimeoutAlert 100 error).

Definition importData (type : kind) (data : list (gmap string jsval)) (m : mode)
  : M unit :=
  processedData ← preprocess type data;
  setState (importData_state type m processedData);;
  try_catch (importData_sync type m processedData) importData_failed.

(** ** Initial load *)

(** [(res.data as T[]) || []] *)
Definition dataOrEmpty (r : response) : list (gmap string jsval) :=
  match r with Ok data => data | Err _ => [] end.

(** [people.filter(p => p.type === t)] *)
Definition ofType (t : string) (people : list (gmap string jsval))
  : list (gmap string jsval) :=
  List.filter (λ p, strict_eq (get p "type") (VStr t)) people.

Definition fetchData_state (people coursesRaw sessions : list (gmap string jsval))
    (prev : AppState) : AppState :=
  {| teachers := ofType "Teacher" people;
     assistants := ofType "TA" people;
     courses := recalculateAll coursesRaw sessions;
     sessions := sessions;
     scheduleParams := scheduleParams prev |}.

Definition fetchData : M unit :=
  setIsLoading true;;
  try_finally
    (try_catch
       ('(peopleRes, coursesRes, sessionsRes) ←
          await_all3 (Select "people") (Select "courses") (Select "sessions");
        setState (fetchData_state (dataOrEmpty peopleRes) (dataOrEmpty coursesRes)
                    (dataOrEmpty sessionsRes));;
        warn_error "Fetch People Error (Cloud):" peopleRes;;
        warn_error "Fetch Courses Error (Cloud):" coursesRes;;
        warn_error "Fetch Sessions Error (Cloud):" sessionsRes)
       (λ error, emit (ConsoleError "数据加载失败:" error)))
    (setIsLoading false).

End Store.

(** ** Schedule parameters *)




(** ** The remote client's configuration *)

Definition FALLBACK_URL : string := "https://txhzycwvdyvbnlmujnvy.supabase.co".

(** [(import.meta as any)?.env?.[key]]: [env] is [None] when [import.meta]
    or its [env] is null or undefined.  An access that throws is caught and
    gives [undefined] as well. *)
Definition getEnv (env : option (gmap string jsval)) (key : string) : jsval :=
  match env with
  | Some vars => get vars key
  | None => VUndefined
  end.

(** [a || b] *)
Definition or_else (a b : jsval) : jsval := if truthy a then a else b.

(** [getEnv('VITE_SUPABASE_URL') || FALLBACK_URL] *)
Definition supabaseUrl (env : option (gmap string jsval)) : jsval :=
  or_else (getEnv env "VITE_SUPABASE_URL") (VStr FALLBACK_URL).

(** [getEnv('VITE_SUPABASE_KEY') || FALLBACK_KEY], the fallback key being
    given. *)
Definition supabaseKey (FALLBACK_KEY : string) (env : option (gmap string jsval))
  : jsval :=
  or_else (getEnv env "VITE_SUPABASE_KEY") (VStr FALLBACK_KEY).

(** ** The root component: which screen is shown *)

Module App.

(** The state of [App]: the session of the authentication service, the
    debug session, and whether the first check is still pending.  A session
    is kept as the address of its user. *)
Record AuthState := {
  session : option string;
  debugSession : option string;
  checkingAuth : bool
}.

Definition initial : AuthState :=
  {| session := None; debugSession := None; checkingAuth := true |}.

Inductive screen :=
  | Spinner
  | Login
  | Dashboard (email : string) (isDebug : bool).

(** [const activeSession = session || debugSession] *)
Definition activeSession (a : AuthState) : option string :=
  match session a with
  | Some s => Some s
  | None => debugSession a
  end.

(** What [App] renders. *)
Definition render (a : AuthState) : screen :=
  if checkingAuth a then Spinner
  else match activeSession a with
       | None => Login
       | Some email => Dashboard email (bool_decide (is_Some (debugSession a)))
       end.

(** [supabase.auth.getSession().then(...)] *)
Definition onGetSession (s : option string) (a : AuthState) : AuthState :=
  {| session := s; debugSession := debugSession a; checkingAuth := false |}.

(** The callback of [supabase.auth.onAuthStateChange]. *)
Definition onAuthStateChange (s : option string) (a : AuthState) : AuthState :=
  {| session := s;
     debugSession := match s with Some _ => None | None => debugSession a end;
     checkingAuth := checkingAuth a |}.

(** [handleLogout]: the new state, and whether [supabase.auth.signOut] is
    called. *)
Definition handleLogout (a : AuthState) : AuthState * bool :=
  match debugSession a with
  | Some _ =>
      ({| session := session a; debugSession := None;
          checkingAuth := checkingAuth a |}, false)
  | None => (a, true)
  end.

Definition handleDebugLogin (a : AuthState) : AuthState :=
  {| session := session a; debugSession := Some "debug@local.dev";
     checkingAuth := checkingAuth a |}.

(** What can happen to [App].  The first check resolves once, while it is
    pending; the debug login is a button of the login screen and the logout
    a button of the dashboard. *)
Inductive step : AuthState → AuthState → Prop :=
  | step_getSession s a :
      checkingAuth a = true → step a (onGetSession s a)
  | step_authStateChange s a :
      step a (onAuthStateChange s a)
  | step_logout a email isDebug :
      render a = Dashboard email isDebug → step a (handleLogout a).1
  | step_debugLogin a :
      render a = Login → step a (handleDebugLogin a).

Inductive reachable : AuthState → Prop :=
  | reachable_initial : reachable initial
  | reachable_step a a' : reachable a → step a a' → reachable a'.

End App.

(** * Properties of the store: what they are stated with *)

Section Specification.

Context `{Host}.

(** [round2], the rounding of [totalHours] to two decimals. *)
Definition round2 (x : number) : number := parseFloat_toFixed2 x.

(** The statistics stored in course [c] are those of [sessions]: the count
    of the sessions that reference [c], and the rounded sum of their
    durations, one that is missing or not a number counting for 0. *)
Definition consistent (sessions : list (gmap string jsval)) (c : gmap string jsval)
  : Prop :=
  c !! "sessionCount"
    = Some (VNum (of_nat (length (courseSessions sessions (get c "id")))))
  ∧ c !! "totalHours"
    = Some (VNum (round2 (totalHours (courseSessions sessions (get c "id"))))).

Definition stats_ok (st : AppState) : Prop :=
  Forall (consistent (sessions st)) (courses st).

(** No two records of [l] carry identifiers that [===] identifies. *)
Fixpoint unique_ids (l : list (gmap string jsval)) : Prop :=
  match l with
  | [] => True
  | x :: rest =>
      Forall (λ y, strict_eq (get x "id") (get y "id") = false) rest
      ∧ unique_ids rest
  end.

(** Sequences of operations on sessions. *)
Inductive session_op :=
  | AddSession (s : gmap string jsval)
  | UpdateSession (s : gmap string jsval)
  | DeleteSession (id : string).

Definition run_op (op : session_op) : M unit :=
  match op with
  | AddSession s => addSession s
  | UpdateSession s => updateSession s
  | DeleteSession id => deleteSession id
  end.

Fixpoint run_ops (ops : list session_op) (w : World) : World :=
  match ops with
  | [] => w
  | op :: rest => run_ops rest (exec (run_op op) w)
  end.

(** The updater of an operation. *)
Definition op_state (op : session_op) : AppState → AppState :=
  match op with
  | AddSession s => addSession_state s
  | UpdateSession s => updateSession_state s
  | DeleteSession id => deleteSession_state id
  end.

(** Every session that [ops] adds carries an identifier that no session
    present at that moment has. *)
Fixpoint fresh_adds (ops : list session_op) (st : AppState) : Prop :=
  match ops with
  | [] => True
  | op :: rest =>
      match op with
      | AddSession s =>
          Forall (λ x, strict_eq (get x "id") (get s "id") = false) (sessions st)
      | _ => True
      end
      ∧ fresh_adds rest (op_state op st)
  end.

(** Record [p] stands, in [after], in the place of every record of [before]
    that has its identifier; the other records are kept. *)
Definition replaced_by_id (p : gmap string jsval)
    (before after : list (gmap string jsval)) : Prop :=
  length after = length before
  ∧ ∀ i x, before !! i = Some x →
      after !! i = Some (if strict_eq (get x "id") (get p "id") then p else x).

(** Collection [l] holds a record with the identifier of [p]. *)
Definition holds (p : gmap string jsval) (l : list (gmap string jsval)) : Prop :=
  ∃ x, x ∈ l ∧ strict_eq (get x "id") (get p "id") = true.

(** [updatePerson p] replaces the record in whichever collection holds it
    and leaves the other collection alone. *)
Definition updatePerson_in_holder (p : gmap string jsval) (w : World) : Prop :=
  let st := state w in
  let st' := state (exec (updatePerson p) w) in
  (holds p (teachers st) →
     replaced_by_id p (teachers st) (teachers st') ∧ assistants st' = assistants st)
  ∧ (holds p (assistants st) →
     replaced_by_id p (assistants st) (assistants st') ∧ teachers st' = teachers st).

(** The local collection an import of [type] writes to. *)
Definition collection (type : kind) (st : AppState) : list (gmap string jsval) :=
  match type with
  | Teachers => teachers st
  | Assistants => assistants st
  | Courses => courses st
  | Sessions => sessions st
  end.

(** After an import of [data] that led from [w] to [w'], record [o] is
    stored for the [i]-th input record. *)
Definition stored_for (type : kind) (m : mode) (w w' : World) (i : nat)
    (o : gmap string jsval) : Prop :=
  let offset :=
    match m with
    | Replace => 0%nat
    | Append => length (collection type (state w))
    end in
  collection type (state w') !! (offset + i)%nat = Some o.

(** The properties of the course and session schemas, which a person must
    not carry. *)
Definition stray_fields : list string :=
  ["teacherIds"; "assistantIds"; "sessionCount"; "totalHours"; "sequence";
   "durationHours"].

(** The identifier list for an input property: the input when it is a
    sequence, the one-element sequence of the input when it is present, the
    empty sequence when it is absent. *)
Definition wrap_present (field : option jsval) : jsval :=
  match field with
  | Some (VArr l) => VArr l
  | Some v => VArr [v]
  | None => VArr []
  end.

(** The same, a present value being wrapped only when it is truthy. *)
Definition wrap_truthy (field : option jsval) : jsval :=
  match field with
  | Some (VArr l) => VArr l
  | Some v => if truthy v then VArr [v] else VArr []
  | None => VArr []
  end.

(** Every record imported as a course or a session is stored with
    [teacherIds] and [assistantIds] given by [rule]. *)
Definition ids_stored_by (rule : option jsval → jsval) (type : kind)
    (data : list (gmap string jsval)) (m : mode) (w : World) : Prop :=
  ∀ i item, data !! i = Some item →
    ∃ o, stored_for type m w (exec (importData type data m) w) i o
      ∧ o !! "teacherIds" = Some (rule (item !! "teacherIds"))
      ∧ o !! "assistantIds" = Some (rule (item !! "assistantIds")).

(** What the [catch] block of [importData] leaves in the trace. *)
Definition import_failure (e : jsval) : list event :=
  [ConsoleError "Cloud Sync Error (Import):" e; SetTimeoutAlert 100 e].

(** An alert has been scheduled. *)
Definition alerted (evs : list event) : bool :=
  existsb (λ e, match e with SetTimeoutAlert _ _ => true | _ => false end) evs.

(** The delete that a replace-mode import issues first: for people, the
    rows of the imported type; for courses and sessions, every row of the
    table. *)
Definition replace_delete (type : kind) : request :=
  match type with
  | Teachers => Delete "people" (FEq "type" (VStr "Teacher"))
  | Assistants => Delete "people" (FEq "type" (VStr "TA"))
  | Courses =>
      Delete "courses" (FNeq "id" (VStr "00000000-0000-0000-0000-000000000000"))
  | Sessions =>
      Delete "sessions" (FNeq "id" (VStr "00000000-0000-0000-0000-000000000000"))
  end.

(** What follows the insert numbered [k] in the trace. *)
Definition after_insert (k : nat) (ins : request) : list event :=
  match remote k ins with
  | Fulfilled (Ok _) => []
  | Fulfilled (Err e) => import_failure (VObj e)
  | Rejected e => import_failure e
  end.

(** The warning for a read that failed. *)
Definition read_warning (label : string) (r : response) : list event :=
  match r with
  | Err e => [ConsoleWarn label (VObj e)]
  | Ok _ => []
  end.

(** What the initial load reports, its three reads being numbered from [k]:
    a warning for each read that failed, or the error that made the
    combined wait fail. *)
Definition load_report (k : nat) : list event :=
  match remote k (Select "people"), remote (S k) (Select "courses"),
        remote (S (S k)) (Select "sessions") with
  | Fulfilled peopleRes, Fulfilled coursesRes, Fulfilled sessionsRes =>
      read_warning "Fetch People Error (Cloud):" peopleRes
      ++ read_warning "Fetch Courses Error (Cloud):" coursesRes
      ++ read_warning "Fetch Sessions Error (Cloud):" sessionsRes
  | Rejected e, _, _ => [ConsoleError "数据加载失败:" e]
  | Fulfilled _, Rejected e, _ => [ConsoleError "数据加载失败:" e]
  | Fulfilled _, Fulfilled _, Rejected e => [ConsoleError "数据加载失败:" e]
  end.

End Specification.

(** ** Concrete data for the examples *)

(** A host whose remote service accepts every call. *)
Definition quiet_host : Host := {|
  StringToNumber := λ _, NaN;
  ObjectToString := λ _, "";
  randomUUID := λ k, String (Ascii.ascii_of_nat (97 + k)) "-uuid";
  remote := λ _ _, Fulfilled (Ok [])
|}.

Definition record (l : list (string * jsval)) : gmap string jsval := list_to_map l.

Definition num (z : Z) : jsval := VNum (Finite (z # 1)).

Definition no_params : ScheduleParams :=
  {| startMonth := "2024-01"; endMonth := ""; selectedPersonId := "" |}.

Definition world_of (st : AppState) : World :=
  {| state := st; isLoading := false; trace := []; calls := 0; uuids := 0 |}.

Definition course (id : string) (count hours : Z) : gmap string jsval :=
  record [("id", VStr id); ("sessionCount", num count); ("totalHours", num hours)].

Definition session (id courseId : string) (hours : Z) : gmap string jsval :=
  record [("id", VStr id); ("courseId", VStr courseId); ("durationHours", num hours)].

(** Three courses and no session. *)
Definition three_courses : AppState :=
  {| teachers := []; assistants := [];
     courses := [course "A" 0 0; course "B" 0 0; course "C" 0 0];
     sessions := []; scheduleParams := no_params |}.

(** Two sessions added under one identifier, then an update that moves that
    identifier to course B. *)
Definition clashing_ops : list session_op :=
  [AddSession (session "s1" "A" 1); AddSession (session "s1" "C" 2);
   UpdateSession (session "s1" "B" 1)].

(** The same with two identifiers. *)
Definition distinct_ops : list session_op :=
  [AddSession (session "s1" "A" 1); AddSession (session "s2" "C" 2);
   UpdateSession (session "s1" "B" 1); DeleteSession "s2"].

(** One teacher and one assistant. *)
Definition person (id type name : string) : gmap string jsval :=
  record [("id", VStr id); ("type", VStr type); ("name", VStr name)].

Definition two_people : AppState :=
  {| teachers := [person "p1" "Teacher" "Ann"];
     assistants := [person "p2" "TA" "Bob"];
     courses := []; sessions := []; scheduleParams := no_params |}.

(** Two sessions with distinct identifiers, in courses A and C. *)
Definition two_sessions : AppState :=
  {| teachers := []; assistants := [];
     courses := [course "A" 1 1; course "B" 0 0; course "C" 1 2];
     sessions := [session "s1" "A" 1; session "s2" "C" 2];
     scheduleParams := no_params |}.

(** A host whose remote service refuses every delete, with an error in the
    response, and accepts every other call. *)
Definition refusing_deletes : Host := {|
  StringToNumber := λ _, NaN;
  ObjectToString := λ _, "";
  randomUUID := λ k, String (Ascii.ascii_of_nat (97 + k)) "-uuid";
  remote := λ _ r,
    match r with
    | Delete _ _ => Fulfilled (Err [("message", VStr "permission denied")])
    | _ => Fulfilled (Ok [])
    end
|}.

(** A course record as a spreadsheet gives it, the teacher cell left blank. *)
Definition blank_teacher : gmap string jsval :=
  record [("id", VStr "c1"); ("name", VStr "Algebra"); ("teacherIds", VStr "");
          ("assistantIds", VStr "p2")].

(** A session record without [sequence] and [durationHours]. *)
Definition bare_session : gmap string jsval :=
  record [("id", VStr "s9"); ("courseId", VStr "A")].

(** A person record with properties of the other schemas. *)
Definition stray_person : gmap string jsval :=
  record [("name", VStr "Cid"); ("type", VStr "Teacher"); ("sessionCount", num 3);
          ("durationHours", num 2)].

(** A host whose remote service refuses to read people, and returns one
    course, with stale statistics, and one session. *)
Definition people_denied : Host := {|
  StringToNumber := λ _, NaN;
  ObjectToString := λ _, "";
  randomUUID := λ k, String (Ascii.ascii_of_nat (97 + k)) "-uuid";
  remote := λ _ r,
    match r with
    | Select table =>
        if String.eqb table "people" then Fulfilled (Err [("message", VStr "permission denied")])
        else if String.eqb table "courses" then Fulfilled (Ok [course "A" 7 9])
        else Fulfilled (Ok [session "s1" "A" 1])
    | _ => Fulfilled (Ok [])
    end
|}.

(** One course and two sessions of 1.5 and 2.333 hours. *)
Definition one_course : AppState :=
  {| teachers := []; assistants := []; courses := [course "C1" 0 0];
     sessions := []; scheduleParams := no_params |}.

Definition timed_session (id courseId : string) (hours : Q) : gmap string jsval :=
  record [("id", VStr id); ("courseId", VStr courseId);
          ("durationHours", VNum (Finite hours))].

(** ** Further notions *)

Section Integrity.

Context `{Host}.

(** Every session references a course of the state. *)
Definition referenced (st : AppState) : Prop :=
  Forall (λ s, Exists (λ c, strict_eq (get s "courseId") (get c "id") = true)
                 (courses st)) (sessions st).

(** The identifiers of the courses, in order. *)
Definition course_ids (st : AppState) : list jsval :=
  map (λ c, get c "id") (courses st).

(** The number of records that carry no usable identifier, and so draw one
    from [crypto.randomUUID]. *)
Definition draws (data : list (gmap string jsval)) : nat :=
  length (List.filter (λ item, negb (truthy (get item "id"))) data).

(** The properties that the normalization of a record of [type] writes or
    removes. *)
Definition rewritten (type : kind) : list string :=
  match type with
  | Teachers | Assistants => "id" :: stray_fields
  | Courses => ["id"; "teacherIds"; "assistantIds"; "sessionCount"; "totalHours"]
  | Sessions => ["id"; "teacherIds"; "assistantIds"; "sequence"; "durationHours"]
  end.

End Integrity.


(** A host whose remote service returns three people, one of a type that is
    neither 'Teacher' nor 'TA'. *)
Definition three_people : Host := {|
  StringToNumber := λ _, NaN;
  ObjectToString := λ _, "";
  randomUUID := λ k, String (Ascii.ascii_of_nat (97 + k)) "-uuid";
  remote := λ _ r,
    match r with
    | Select table =>
        if String.eqb table "people"
        then Fulfilled (Ok [person "p1" "Teacher" "Ann"; person "p2" "TA" "Bob";
                            person "p3" "Guest" "Cid"])
        else Fulfilled (Ok [])
    | _ => Fulfilled (Ok [])
    end
|}.

(** A record without identifier, between two that have one. *)
Definition mixed_people : list (gmap string jsval) :=
  [person "p7" "Teacher" "Dan"; stray_person; person "p8" "Teacher" "Eve"].

(** * Properties of the store *)

(** Unfold the steps of an operation, and consider how each remote call
    settles. *)
Ltac run_step :=
  cbv [exec mbind M_bind mret M_ret setState setIsLoading await await_all3 issue
       settle log_error warn_error emit throw try_catch try_finally preprocess];
  cbn [state isLoading trace calls uuids fst snd].

Ltac run_exec :=
  run_step;
  repeat match goal with
  | |- context [remote ?k ?r] => destruct (remote k r) as [[?|?]|?]; run_step
  end.

Section Facts.

Context `{Host}.

(** ** [===] is symmetric and transitive *)

Lemma Qeq_bool_sym x y : Qeq_bool x y = Qeq_bool y x.
Proof.
  destruct (Qeq_bool x y) eqn:E; symmetry.
  - apply Qeq_bool_iff. symmetry. by apply Qeq_bool_iff.
  - destruct (Qeq_bool y x) eqn:E'; [|done].
    apply Qeq_bool_iff in E'. symmetry in E'. apply Qeq_bool_iff in E'. congruence.
Qed.

Lemma number_eq_sym a b : number_eq a b = number_eq b a.
Proof. destruct a, b; simpl; auto using Qeq_bool_sym. Qed.

Lemma number_eq_trans a b c :
  number_eq a b = true → number_eq b c = true → number_eq a c = true.
Proof.
  destruct a, b, c; simpl; try done.
  rewrite !Qeq_bool_iff. intros ->. done.
Qed.

Lemma strict_eq_sym a b : strict_eq a b = strict_eq b a.
Proof.
  destruct a, b; simpl; try done.
  - by destruct b, b0.
  - apply number_eq_sym.
  - apply String.eqb_sym.
Qed.

Lemma strict_eq_trans a b c :
  strict_eq a b = true → strict_eq b c = true → strict_eq a c = true.
Proof.
  destruct a, b, c; simpl; try done.
  - destruct b, b0, b1; done.
  - apply number_eq_trans.
  - rewrite !String.eqb_eq. congruence.
Qed.

(** Two values that [===] identifies are identified with the same values. *)
Lemma strict_eq_congr a b x :
  strict_eq a b = true → strict_eq x a = strict_eq x b.
Proof.
  intros Hab. destruct (strict_eq x b) eqn:E.
  - apply strict_eq_trans with b; [done|]. by rewrite strict_eq_sym.
  - destruct (strict_eq x a) eqn:E'; [|done].
    rewrite (strict_eq_trans _ _ _ E' Hab) in E. done.
Qed.

(** ** The local state after an operation on sessions *)

Lemma addSession_exec s w :
  state (exec (addSession s) w) = addSession_state s (state w).
Proof. unfold addSession. by run_exec. Qed.

Lemma updateSession_exec s w :
  state (exec (updateSession s) w) = updateSession_state s (state w).
Proof. unfold updateSession. by run_exec. Qed.

Lemma deleteSession_exec id w :
  state (exec (deleteSession id) w) = deleteSession_state id (state w).
Proof. unfold deleteSession. by run_exec. Qed.

Lemma run_op_state op w : state (exec (run_op op) w) = op_state op (state w).
Proof.
  destruct op; simpl;
    auto using addSession_exec, updateSession_exec, deleteSession_exec.
Qed.

(** ** Statistics of one course *)

Lemma get_withStats_id c cs : get (withStats c cs) "id" = get c "id".
Proof. unfold get, withStats. by rewrite !lookup_insert_ne. Qed.

Lemma courseSessions_congr sessions a b :
  strict_eq a b = true → courseSessions sessions a = courseSessions sessions b.
Proof.
  intros Hab. unfold courseSessions. induction sessions as [|s l IH]; [done|].
  simpl. rewrite IH. by rewrite (strict_eq_congr a b).
Qed.

(** A course that has just been recomputed is consistent. *)
Lemma withStats_own_sessions sessions c :
  consistent sessions (withStats c (courseSessions sessions (get c "id"))).
Proof.
  unfold consistent. rewrite get_withStats_id. unfold withStats, round2. split.
  - rewrite lookup_insert_ne by done. by rewrite lookup_insert_eq.
  - by rewrite lookup_insert_eq.
Qed.

Lemma withStats_consistent sessions c courseId :
  strict_eq (get c "id") courseId = true →
  consistent sessions (withStats c (courseSessions sessions courseId)).
Proof.
  intros Hc. rewrite <- (courseSessions_congr sessions _ _ Hc).
  apply withStats_own_sessions.
Qed.

(** Consistency only looks at the sessions of the course. *)
Lemma consistent_same_sessions old new c :
  courseSessions new (get c "id") = courseSessions old (get c "id") →
  consistent old c → consistent new c.
Proof. unfold consistent. by intros ->. Qed.

(** After [recalculateCourseStats] a property holds of every course when it
    holds of the recomputed ones and held of the others. *)
Lemma recalculate_Forall (Q : gmap string jsval → Prop) courses sessions courseId :
  Forall (λ c, strict_eq (get c "id") courseId = true ∨ Q c) courses →
  (∀ c, strict_eq (get c "id") courseId = true →
        Q (withStats c (courseSessions sessions courseId))) →
  Forall Q (recalculateCourseStats courses sessions courseId).
Proof.
  intros Hall Hnew. unfold recalculateCourseStats.
  induction courses as [|c l IH]; simpl; [constructor|].
  apply Forall_cons in Hall as [Hc Hl]. constructor; [|by apply IH].
  destruct (strict_eq (get c "id") courseId) eqn:E; simpl; [by apply Hnew|].
  by destruct Hc.
Qed.

Lemma recalculate_consistent courses sessions courseId :
  Forall (λ c, strict_eq (get c "id") courseId = true ∨ consistent sessions c)
    courses →
  Forall (consistent sessions) (recalculateCourseStats courses sessions courseId).
Proof.
  intros Hall. apply recalculate_Forall; [done|].
  intros c Hc. by apply withStats_consistent.
Qed.

(** ** Sessions with unique identifiers *)

Lemma unique_ids_same l x y :
  unique_ids l → x ∈ l → y ∈ l →
  strict_eq (get x "id") (get y "id") = true → x = y.
Proof.
  induction l as [|z l IH]; simpl.
  { intros _ Hx. by apply elem_of_nil in Hx. }
  intros [Hz Hl] Hx Hy Hxy.
  rewrite Forall_forall in Hz.
  apply elem_of_cons in Hx as [->|Hx]; apply elem_of_cons in Hy as [->|Hy].
  - done.
  - rewrite (Hz _ Hy) in Hxy. done.
  - rewrite strict_eq_sym, (Hz _ Hx) in Hxy. done.
  - by apply IH.
Qed.

Lemma find_elem (f : gmap string jsval → bool) l x :
  List.find f l = Some x → x ∈ l ∧ f x = true.
Proof.
  intros Hf. apply find_some in Hf as [Hin Hfx]. split; [|done].
  by apply list_elem_of_In.
Qed.

Lemma find_absent (f : gmap string jsval → bool) l x :
  List.find f l = None → x ∈ l → f x = false.
Proof.
  intros Hf Hx. apply (find_none f l Hf). by apply list_elem_of_In.
Qed.

(** With unique identifiers, the session found under an identifier is the
    only one that carries it. *)
Lemma found_is_only l v old x :
  unique_ids l →
  List.find (λ s, strict_eq (get s "id") v) l = Some old →
  x ∈ l → strict_eq (get x "id") v = true → x = old.
Proof.
  intros Hu Hf Hx Hxv. apply find_elem in Hf as [Ho Hov].
  apply (unique_ids_same l); [done..|].
  apply strict_eq_trans with v; [done|]. by rewrite strict_eq_sym.
Qed.

Lemma unique_ids_app l s :
  unique_ids l →
  Forall (λ x, strict_eq (get x "id") (get s "id") = false) l →
  unique_ids (l ++ [s]).
Proof.
  induction l as [|x l IH]; simpl; [done|].
  intros [Hx Hl] Hs. apply Forall_cons in Hs as [Hxs Hs].
  split; [|by apply IH].
  apply Forall_app. split; [done|]. by repeat constructor.
Qed.

Lemma unique_ids_replace l s : unique_ids l → unique_ids (replaceById s l).
Proof.
  induction l as [|x l IH]; simpl; [done|].
  intros [Hx Hl]. split; [|by apply IH].
  unfold replaceById. apply Forall_fmap. eapply Forall_impl; [exact Hx|].
  intros y Hxy. simpl in *.
  destruct (strict_eq (get x "id") (get s "id")) eqn:Ex;
    destruct (strict_eq (get y "id") (get s "id")) eqn:Ey; try done.
  - rewrite strict_eq_sym in Ey.
    by rewrite (strict_eq_trans _ _ _ Ex Ey) in Hxy.
  - by rewrite strict_eq_sym.
Qed.

Lemma unique_ids_remove key v l : unique_ids l → unique_ids (removeBy key v l).
Proof.
  induction l as [|x l IH]; simpl; [done|].
  intros [Hx Hl]. specialize (IH Hl).
  destruct (negb (strict_eq (get x key) v)); [|done].
  simpl. split; [|done].
  rewrite Forall_forall in Hx. apply Forall_forall. intros y Hy.
  apply Hx. unfold removeBy in Hy.
  apply list_elem_of_In, filter_In in Hy as [Hy _]. by apply list_elem_of_In.
Qed.

(** ** How an operation changes the sessions of a course *)

Lemma courseSessions_add l s courseId :
  strict_eq (get s "courseId") courseId = false →
  courseSessions (l ++ [s]) courseId = courseSessions l courseId.
Proof.
  intros Hs. unfold courseSessions. rewrite List.filter_app. simpl.
  rewrite Hs. apply app_nil_r.
Qed.

Lemma courseSessions_replace l s courseId :
  (∀ x, x ∈ l → strict_eq (get x "id") (get s "id") = true →
        strict_eq (get x "courseId") courseId = false) →
  strict_eq (get s "courseId") courseId = false →
  courseSessions (replaceById s l) courseId = courseSessions l courseId.
Proof.
  intros Hl Hs. induction l as [|x l IH]; simpl; [done|].
  rewrite IH by (intros y Hy; apply Hl; by right).
  destruct (strict_eq (get x "id") (get s "id")) eqn:Ex; [|done].
  rewrite Hs. rewrite (Hl x); [done|by left|done].
Qed.

Lemma courseSessions_remove l v courseId :
  (∀ x, x ∈ l → strict_eq (get x "id") v = true →
        strict_eq (get x "courseId") courseId = false) →
  courseSessions (removeBy "id" v l) courseId = courseSessions l courseId.
Proof.
  intros Hl. induction l as [|x l IH]; simpl; [done|].
  rewrite <- IH by (intros y Hy; apply Hl; by right).
  destruct (strict_eq (get x "id") v) eqn:Ex; simpl; [|done].
  rewrite (Hl x); [done|by left|done].
Qed.

Lemma replaceById_absent l s :
  (∀ x, x ∈ l → strict_eq (get x "id") (get s "id") = false) →
  replaceById s l = l.
Proof.
  intros Hl. induction l as [|x l IH]; simpl; [done|].
  rewrite IH by (intros y Hy; apply Hl; by right).
  rewrite (Hl x); [done|by left].
Qed.

Lemma removeBy_absent key l v :
  (∀ x, x ∈ l → strict_eq (get x key) v = false) → removeBy key v l = l.
Proof.
  intros Hl. induction l as [|x l IH]; simpl; [done|].
  rewrite (Hl x) by (by left). simpl.
  f_equal. apply IH. intros y Hy. apply Hl. by right.
Qed.

(** ** Each operation keeps the statistics consistent *)

Lemma addSession_consistent s st : stats_ok st → stats_ok (addSession_state s st).
Proof.
  unfold stats_ok. simpl. intros Hst.
  apply recalculate_consistent.
  eapply Forall_impl; [exact Hst|]. intros c Hc. simpl.
  destruct (strict_eq (get c "id") (get s "courseId")) eqn:E; [by left|right].
  eapply consistent_same_sessions; [|exact Hc].
  apply courseSessions_add. by rewrite strict_eq_sym.
Qed.

Lemma updateSession_consistent s st :
  stats_ok st → unique_ids (sessions st) → stats_ok (updateSession_state s st).
Proof.
  unfold stats_ok. simpl. intros Hst Hu.
  destruct (List.find _ (sessions st)) as [old|] eqn:Hfind.
  - assert (Hkeep : ∀ c, consistent (sessions st) c →
              strict_eq (get c "id") (get s "courseId") = false →
              strict_eq (get c "id") (get old "courseId") = false →
              consistent (replaceById s (sessions st)) c).
    { intros c Hc Hnew Hold. eapply consistent_same_sessions; [|exact Hc].
      apply courseSessions_replace; [|by rewrite strict_eq_sym].
      intros x Hx Hxs.
      rewrite (found_is_only _ _ _ x Hu Hfind Hx Hxs). by rewrite strict_eq_sym. }
    destruct (strict_eq (get old "courseId") (get s "courseId")) eqn:Esame; simpl.
    + apply recalculate_consistent.
      eapply Forall_impl; [exact Hst|]. intros c Hc. simpl.
      destruct (strict_eq (get c "id") (get s "courseId")) eqn:E; [by left|right].
      apply Hkeep; [done..|].
      by rewrite <- (strict_eq_congr _ _ (get c "id") Esame) in E.
    + apply recalculate_consistent. apply recalculate_Forall.
      * eapply Forall_impl; [exact Hst|]. intros c Hc. simpl.
        destruct (strict_eq (get c "id") (get s "courseId")) eqn:E; [by left|right].
        destruct (strict_eq (get c "id") (get old "courseId")) eqn:E'; [by left|right].
        by apply Hkeep.
      * intros c Hc. right. by apply withStats_consistent.
  - rewrite replaceById_absent by (intros x Hx; by apply (find_absent _ _ x Hfind)).
    apply recalculate_consistent.
    eapply Forall_impl; [exact Hst|]. intros c Hc. by right.
Qed.

Lemma deleteSession_consistent id st :
  stats_ok st → unique_ids (sessions st) → stats_ok (deleteSession_state id st).
Proof.
  unfold stats_ok. simpl. intros Hst Hu.
  destruct (List.find _ (sessions st)) as [old|] eqn:Hfind.
  - apply recalculate_consistent.
    eapply Forall_impl; [exact Hst|]. intros c Hc. simpl.
    destruct (strict_eq (get c "id") (get old "courseId")) eqn:E; [by left|right].
    eapply consistent_same_sessions; [|exact Hc].
    apply courseSessions_remove. intros x Hx Hxs.
    rewrite (found_is_only _ _ _ x Hu Hfind Hx Hxs). by rewrite strict_eq_sym.
  - rewrite removeBy_absent by (intros x Hx; by apply (find_absent _ _ x Hfind)).
    done.
Qed.

(** The invariant of a sequence of operations on sessions. *)
Lemma op_state_invariant op st :
  stats_ok st → unique_ids (sessions st) → fresh_adds [op] st →
  stats_ok (op_state op st) ∧ unique_ids (sessions (op_state op st)).
Proof.
  intros Hst Hu [Hfresh _]. destruct op as [s|s|id]; simpl.
  - split; [by apply addSession_consistent|by apply unique_ids_app].
  - split; [by apply updateSession_consistent|by apply unique_ids_replace].
  - split; [by apply deleteSession_consistent|by apply unique_ids_remove].
Qed.

(** C1 (amended).  Take a state whose course statistics are consistent and
    whose sessions carry pairwise distinct identifiers, and a sequence of
    session add / update / delete operations in which every added session
    carries an identifier not present at that moment.  After each
    operation of the sequence, every course [c] of the local collection has
    [c.sessionCount] equal to the number of sessions whose [courseId] is
    [c.id], and [c.totalHours] equal to [round2] of the sum of their
    durations, a duration that is missing or not a number counting for 0. *)
Theorem session_ops_keep_stats (ops : list session_op) (w : World) :
  stats_ok (state w) →
  unique_ids (sessions (state w)) →
  fresh_adds ops (state w) →
  ∀ n, stats_ok (state (run_ops (take n ops) w)).
Proof.
  revert w. induction ops as [|op ops IH]; intros w Hst Hu Hfresh n.
  - by rewrite take_nil.
  - destruct n as [|n]; simpl; [done|].
    destruct Hfresh as [Hop Hrest].
    destruct (op_state_invariant op (state w)) as [Hst' Hu']; [done|done|by split|].
    apply IH; by rewrite run_op_state.
Qed.

End Facts.

(** Two sessions of 1.5 and 2.333 hours added to a course: the course counts
    2 sessions and 3.83 hours. *)
Example two_sessions_added :
  let st :=
    state (run_ops (H := quiet_host)
             [AddSession (timed_session "s1" "C1" (15 # 10));
              AddSession (timed_session "s2" "C1" (2333 # 1000))]
             (world_of one_course)) in
  (λ c : gmap string jsval, (c !! "sessionCount", c !! "totalHours")) <$> courses st
  = [(Some (num 2), Some (VNum (Finite (383 # 100))))].
Proof. by vm_compute. Qed.

(** A tie is rounded to the larger magnitude, and a value from 1e21 on is
    kept. *)
Example toFixed2_rounds :
  toFixed2 (1 # 200) = 1 # 100
  ∧ toFixed2 (-1 # 200) = -1 # 100
  ∧ toFixed2 (12344 # 10000) = 123 # 100
  ∧ toFixed2 (3000000000000000000001 # 3) = 3000000000000000000001 # 3.
Proof. by vm_compute. Qed.

(** C1, on a concrete run.  From three courses without sessions, two
    sessions are added under the identifier "s1", one to course A and one to
    course C; updating "s1" with course B replaces both, and recomputes B
    and A.  Course C keeps [sessionCount] 1 although no session references
    it: the statistics are no longer consistent. *)
Lemma session_ops_shared_id_break_stats :
  stats_ok (H := quiet_host) (state (world_of three_courses))
  ∧ ¬ stats_ok (H := quiet_host)
        (state (run_ops (H := quiet_host) clashing_ops (world_of three_courses))).
Proof.
  split.
  - repeat constructor.
  - intros Hst. unfold stats_ok in Hst.
    apply (proj1 (Forall_lookup _ _)) with (i := 2%nat) (x := course "C" 1 2) in Hst;
      [|by vm_compute].
    destruct Hst as [Hcount _]. vm_compute in Hcount. discriminate Hcount.
Qed.

(** A run with distinct identifiers: two adds, an update that moves a
    session to another course, a delete. *)
Lemma session_ops_keep_stats_witness :
  stats_ok (H := quiet_host)
    (state (run_ops (H := quiet_host) (take 4 distinct_ops) (world_of three_courses))).
Proof.
  apply (session_ops_keep_stats (H := quiet_host) distinct_ops (world_of three_courses)).
  - repeat constructor.
  - exact I.
  - vm_compute. repeat (split || constructor).
Defined.

Section Mutators.

Context `{Host}.

Lemma strict_eq_VStr v s : strict_eq v (VStr s) = true ↔ v = VStr s.
Proof.
  destruct v; simpl; try (split; [done|intros [=]]).
  rewrite String.eqb_eq. split; [by intros ->|by intros [= ->]].
Qed.

Lemma elem_of_removeBy key s l x :
  x ∈ removeBy key (VStr s) l ↔ x ∈ l ∧ get x key ≠ VStr s.
Proof.
  unfold removeBy. rewrite !list_elem_of_In, filter_In, negb_true_iff.
  rewrite <- strict_eq_VStr, not_true_iff_false. done.
Qed.

Lemma replaceById_replaced p l : replaced_by_id p l (replaceById p l).
Proof.
  unfold replaced_by_id, replaceById. split; [apply length_map|].
  intros i x Hx. by rewrite list_lookup_fmap, Hx.
Qed.

(** C2.  [deleteCourse id] removes from the local state the courses with
    that identifier and exactly the sessions whose [courseId] is [id]; the
    records that remain are those that were there, in their order, so every
    remaining course keeps its [sessionCount] and [totalHours]; people are
    not touched.  The delete on the remote sessions table is issued first;
    the delete of the course follows once that call has settled. *)
Theorem deleteCourse_cascade (id : string) (w : World) :
  let st := state w in
  let w' := exec (deleteCourse id) w in
  let st' := state w' in
  let delSessions := Delete "sessions" (FEq "courseId" (VStr id)) in
  let delCourse := Delete "courses" (FEq "id" (VStr id)) in
  (∀ s, s ∈ sessions st' ↔ s ∈ sessions st ∧ get s "courseId" ≠ VStr id)
  ∧ (∀ c, c ∈ courses st' ↔ c ∈ courses st ∧ get c "id" ≠ VStr id)
  ∧ sessions st'
    = List.filter (λ s, negb (strict_eq (get s "courseId") (VStr id))) (sessions st)
  ∧ courses st'
    = List.filter (λ c, negb (strict_eq (get c "id") (VStr id))) (courses st)
  ∧ teachers st' = teachers st
  ∧ assistants st' = assistants st
  ∧ trace w'
    = trace w ++ Request delSessions ::
        match remote (calls w) delSessions with
        | Rejected _ => []
        | Fulfilled _ =>
            Request delCourse ::
              match remote (S (calls w)) delCourse with
              | Fulfilled (Err e) =>
                  [ConsoleError "Delete Course Error (Cloud):" (VObj e)]
              | _ => []
              end
        end.
Proof.
  assert (Hst : state (exec (deleteCourse id) w)
    = {| teachers := teachers (state w); assistants := assistants (state w);
         courses := removeBy "id" (VStr id) (courses (state w));
         sessions := removeBy "courseId" (VStr id) (sessions (state w));
         scheduleParams := scheduleParams (state w) |}).
  { unfold deleteCourse. by run_exec. }
  simpl. rewrite Hst. simpl.
  split; [intros s; apply elem_of_removeBy|].
  split; [intros c; apply elem_of_removeBy|].
  do 4 (split; [done|]).
  unfold deleteCourse. run_exec; by rewrite <- ?app_assoc.
Qed.

Lemma recalculate_lookup courses sessions courseId i c :
  courses !! i = Some c →
  recalculateCourseStats courses sessions courseId !! i
  = Some (if negb (strict_eq (get c "id") courseId) then c
          else withStats c (courseSessions sessions courseId)).
Proof. intros Hc. unfold recalculateCourseStats. by rewrite list_lookup_fmap, Hc. Qed.

Lemma withStats_other c cs k :
  k ≠ "sessionCount" → k ≠ "totalHours" → withStats c cs !! k = c !! k.
Proof. intros H1 H2. unfold withStats. by rewrite !lookup_insert_ne. Qed.


(** C9 (amended).  [updatePerson p] picks the collection by the type of
    [p]: when [p.type] is 'Teacher', [p] replaces every record of
    [teachers] that has its identifier and [assistants] is unchanged;
    otherwise [p] replaces every record of [assistants] that has its
    identifier and [teachers] is unchanged.  Courses and sessions are not
    touched. *)
Theorem updatePerson_by_type (p : gmap string jsval) (w : World) :
  let st := state w in
  let st' := state (exec (updatePerson p) w) in
  (if strict_eq (get p "type") (VStr "Teacher")
   then replaced_by_id p (teachers st) (teachers st')
        ∧ assistants st' = assistants st
   else replaced_by_id p (assistants st) (assistants st')
        ∧ teachers st' = teachers st)
  ∧ courses st' = courses st
  ∧ sessions st' = sessions st.
Proof.
  unfold updatePerson.
  destruct (strict_eq (get p "type") (VStr "Teacher")); run_exec;
    (split; [split; [apply replaceById_replaced|done]|done]).
Qed.

(** C10.  [deletePerson id] leaves in [teachers] and in [assistants] exactly
    the records whose identifier is not [id], in their order; it takes the
    identifier alone, and the remote delete it issues is keyed by the
    identifier alone. *)
Theorem deletePerson_both (id : string) (w : World) :
  let st := state w in
  let w' := exec (deletePerson id) w in
  let st' := state w' in
  let del := Delete "people" (FEq "id" (VStr id)) in
  (∀ x, x ∈ teachers st' ↔ x ∈ teachers st ∧ get x "id" ≠ VStr id)
  ∧ (∀ x, x ∈ assistants st' ↔ x ∈ assistants st ∧ get x "id" ≠ VStr id)
  ∧ teachers st'
    = List.filter (λ t, negb (strict_eq (get t "id") (VStr id))) (teachers st)
  ∧ assistants st'
    = List.filter (λ a, negb (strict_eq (get a "id") (VStr id))) (assistants st)
  ∧ courses st' = courses st
  ∧ sessions st' = sessions st
  ∧ trace w'
    = trace w ++ Request del ::
        match remote (calls w) del with
        | Fulfilled (Err e) => [ConsoleError "Delete Person Error (Cloud):" (VObj e)]
        | _ => []
        end.
Proof.
  assert (Hst : state (exec (deletePerson id) w)
    = {| teachers := removeBy "id" (VStr id) (teachers (state w));
         assistants := removeBy "id" (VStr id) (assistants (state w));
         courses := courses (state w); sessions := sessions (state w);
         scheduleParams := scheduleParams (state w) |}).
  { unfold deletePerson. by run_exec. }
  simpl. rewrite Hst. simpl.
  split; [intros x; apply elem_of_removeBy|].
  split; [intros x; apply elem_of_removeBy|].
  do 4 (split; [done|]).
  unfold deletePerson. run_exec; by rewrite <- ?app_assoc.
Qed.

End Mutators.


(** C9, on a concrete state.  Ann is held by [teachers]; an update that
    carries her identifier and the type 'TA' leaves her record in
    [teachers] as it was. *)
Lemma updatePerson_other_type_not_replaced :
  ¬ updatePerson_in_holder (H := quiet_host)
      (person "p1" "TA" "Ann B") (world_of two_people).
Proof.
  intros [Hteachers _].
  destruct Hteachers as [[_ Hrep] _].
  { exists (person "p1" "Teacher" "Ann"). split; [by left|by vm_compute]. }
  specialize (Hrep 0%nat (person "p1" "Teacher" "Ann") eq_refl).
  vm_compute in Hrep. discriminate Hrep.
Qed.

Section Importer.

Context `{Host}.

(** ** Normalization of one record *)

Lemma processItem_session type item k :
  type = Sessions →
  let o := (processItem type item k).1 in
  o !! "sequence" = Some (toNumberOrZero (get item "sequence"))
  ∧ o !! "durationHours" = Some (toNumberOrZero (get item "durationHours")).
Proof.
  intros ->. unfold processItem.
  destruct (truthy (get item "id")); simpl; by simplify_map_eq.
Qed.

Lemma processItem_person type item k key :
  type = Teachers ∨ type = Assistants →
  key ∈ stray_fields →
  (processItem type item k).1 !! key = None.
Proof.
  intros Htype Hkey. unfold stray_fields in Hkey.
  repeat (apply elem_of_cons in Hkey as [->|Hkey]);
    [..|by apply elem_of_nil in Hkey];
    unfold processItem; destruct (truthy (get item "id"));
    destruct Htype as [-> | ->]; simpl; by simplify_map_eq.
Qed.

Lemma toIdArray_wrap item key :
  toIdArray (get item key) = wrap_truthy (item !! key).
Proof.
  unfold get, toIdArray, wrap_truthy.
  destruct (item !! key) as [[]|]; simpl; done.
Qed.

Lemma processItem_ids type item k :
  type = Courses ∨ type = Sessions →
  let o := (processItem type item k).1 in
  o !! "teacherIds" = Some (wrap_truthy (item !! "teacherIds"))
  ∧ o !! "assistantIds" = Some (wrap_truthy (item !! "assistantIds")).
Proof.
  intros Htype. rewrite <- !toIdArray_wrap. unfold processItem.
  destruct (truthy (get item "id")); destruct Htype as [-> | ->]; simpl;
    by simplify_map_eq.
Qed.

(** ** The records of an import *)

Lemma processData_lookup type data k i item :
  data !! i = Some item →
  ∃ k', (processData type data k).1 !! i = Some (processItem type item k').1.
Proof.
  revert k i. induction data as [|x data IH]; intros k i Hi; [done|].
  simpl. destruct (processItem type x k) as [o k1] eqn:Ho.
  destruct (processData type data k1) as [os k2] eqn:Hos.
  destruct i as [|i]; simpl in *.
  - injection Hi as ->. exists k. by rewrite Ho.
  - destruct (IH k1 i Hi) as [k' Hk']. exists k'. by rewrite Hos in Hk'.
Qed.

(** The local state after [importData] is the local apply, however the
    remote calls settle. *)
Lemma importData_exec_state type data m w :
  state (exec (importData type data m) w)
  = importData_state type m (processData type data (uuids w)).1 (state w).
Proof.
  unfold importData, importData_sync, importData_failed. run_step.
  destruct (processData type data (uuids w)) as [items k].
  destruct m, type; simpl; by run_exec.
Qed.

Lemma collection_importData_state type m items st :
  collection type (importData_state type m items st)
  = merge m (collection type st) items.
Proof. by destruct type. Qed.

Lemma importData_stored type data m w i item :
  data !! i = Some item →
  ∃ k, stored_for type m w (exec (importData type data m) w) i
         (processItem type item k).1.
Proof.
  intros Hi. destruct (processData_lookup type data (uuids w) i item Hi) as [k Hk].
  exists k. unfold stored_for. simpl.
  rewrite importData_exec_state, collection_importData_state.
  destruct m; simpl; [|done].
  rewrite lookup_app_r by lia. by replace (_ + i - _)%nat with i by lia.
Qed.

(** The remote calls of an import, and what is reported. *)
Lemma importData_trace type data m w :
  let ins := Insert (tableName type) (processData type data (uuids w)).1 in
  trace (exec (importData type data m) w)
  = trace w ++
      match m with
      | Append => Request ins :: after_insert (calls w) ins
      | Replace =>
          Request (replace_delete type) ::
            match remote (calls w) (replace_delete type) with
            | Rejected e => import_failure e
            | Fulfilled _ => Request ins :: after_insert (S (calls w)) ins
            end
      end.
Proof.
  unfold importData, importData_sync, importData_failed, after_insert,
    import_failure.
  run_step. destruct (processData type data (uuids w)) as [items k].
  destruct m, type; simpl; run_exec; by rewrite <- ?app_assoc.
Qed.

(** An insert that answers with an error is reported: the error is logged
    and an alert is scheduled. *)
Lemma importData_insert_error_reported type data w e :
  let ins := Insert (tableName type) (processData type data (uuids w)).1 in
  remote (calls w) ins = Fulfilled (Err e) →
  trace (exec (importData type data Append) w)
  = trace w ++ Request ins :: import_failure (VObj e).
Proof.
  intros ins Hins. rewrite importData_trace. fold ins.
  unfold after_insert. by rewrite Hins.
Qed.

(** C7.  Every record imported with kind 'sessions' that has no [sequence]
    is stored with [sequence] the number 0, and likewise for
    [durationHours]; every record imported with kind 'teachers' or
    'assistants' is stored without [teacherIds], [assistantIds],
    [sessionCount], [totalHours], [sequence] and [durationHours]. *)
Theorem importData_normalizes (type : kind) (data : list (gmap string jsval))
    (m : mode) (w : World) (i : nat) (item : gmap string jsval) :
  data !! i = Some item →
  ∃ o, stored_for type m w (exec (importData type data m) w) i o
    ∧ (type = Sessions →
         (item !! "sequence" = None → o !! "sequence" = Some (VNum zero))
         ∧ (item !! "durationHours" = None → o !! "durationHours" = Some (VNum zero)))
    ∧ (type = Teachers ∨ type = Assistants →
         ∀ key, key ∈ stray_fields → o !! key = None).
Proof.
  intros Hi. destruct (importData_stored type data m w i item Hi) as [k Hk].
  eexists. split; [exact Hk|]. split.
  - intros Htype. destruct (processItem_session type item k Htype) as [Hseq Hdur].
    split; intros Hnone; [rewrite Hseq|rewrite Hdur];
      unfold get; by rewrite Hnone.
  - intros Htype key Hkey. by apply processItem_person.
Qed.

(** C8 (amended).  Every record imported with kind 'courses' or 'sessions'
    is stored with [teacherIds] (and likewise [assistantIds]) equal to the
    input when the input is a sequence, to the one-element sequence of the
    input when the input is another truthy value, and to the empty sequence
    when the property is absent or falsy. *)
Theorem importData_wraps_ids (type : kind) (data : list (gmap string jsval))
    (m : mode) (w : World) :
  type = Courses ∨ type = Sessions →
  ids_stored_by wrap_truthy type data m w.
Proof.
  intros Htype i item Hi.
  destruct (importData_stored type data m w i item Hi) as [k Hk].
  eexists. split; [exact Hk|]. by apply processItem_ids.
Qed.

(** C4.  Whatever the records and the mode, importing 'teachers' leaves the
    local assistants as they were and importing 'assistants' leaves the
    local teachers as they were.  In replace mode the first remote call of
    an import of people deletes the rows of the imported type only: the
    filter is [type = 'Teacher'], respectively [type = 'TA']; no other
    delete is issued. *)
Theorem importData_people_scoped (data : list (gmap string jsval)) (m : mode)
    (w : World) :
  assistants (state (exec (importData Teachers data m) w)) = assistants (state w)
  ∧ teachers (state (exec (importData Assistants data m) w)) = teachers (state w)
  ∧ (let ins := Insert "people" (processData Teachers data (uuids w)).1 in
     let del := Delete "people" (FEq "type" (VStr "Teacher")) in
     trace (exec (importData Teachers data Replace) w)
     = trace w ++ Request del ::
         match remote (calls w) del with
         | Rejected e => import_failure e
         | Fulfilled _ => Request ins :: after_insert (S (calls w)) ins
         end)
  ∧ (let ins := Insert "people" (processData Assistants data (uuids w)).1 in
     let del := Delete "people" (FEq "type" (VStr "TA")) in
     trace (exec (importData Assistants data Replace) w)
     = trace w ++ Request del ::
         match remote (calls w) del with
         | Rejected e => import_failure e
         | Fulfilled _ => Request ins :: after_insert (S (calls w)) ins
         end).
Proof.
  rewrite !importData_exec_state.
  split; [by destruct m|]. split; [by destruct m|].
  split; apply importData_trace.
Qed.

End Importer.

(** A session without [sequence] and [durationHours], and a person with
    [sessionCount] and [durationHours], imported in replace mode. *)
Lemma importData_normalizes_witness :
  (∃ o, stored_for Sessions Replace (world_of three_courses)
          (exec (importData (H := quiet_host) Sessions [bare_session] Replace)
             (world_of three_courses)) 0 o
     ∧ o !! "sequence" = Some (VNum zero)
     ∧ o !! "durationHours" = Some (VNum zero))
  ∧ (∃ o, stored_for Teachers Replace (world_of two_people)
            (exec (importData (H := quiet_host) Teachers [stray_person] Replace)
               (world_of two_people)) 0 o
       ∧ o !! "sessionCount" = None
       ∧ o !! "durationHours" = None).
Proof.
  split.
  - destruct (importData_normalizes (H := quiet_host) Sessions [bare_session]
      Replace (world_of three_courses) 0 bare_session eq_refl)
      as (o & Ho & Hsession & _).
    destruct (Hsession eq_refl) as [Hseq Hdur].
    exists o. split; [exact Ho|].
    split; [apply Hseq|apply Hdur]; reflexivity.
  - destruct (importData_normalizes (H := quiet_host) Teachers [stray_person]
      Replace (world_of two_people) 0 stray_person eq_refl)
      as (o & Ho & _ & Hperson).
    exists o. split; [exact Ho|].
    split; apply (Hperson (or_introl eq_refl)); unfold stray_fields.
    + do 2 right. by left.
    + do 5 right. by left.
Defined.

(** C8, on a concrete record.  A course whose [teacherIds] is the empty
    string is stored with [teacherIds] the empty sequence, not the
    one-element sequence of the empty string. *)
Lemma importData_blank_id_not_wrapped :
  ¬ ids_stored_by (H := quiet_host) wrap_present Courses [blank_teacher] Replace
      (world_of three_courses).
Proof.
  intros Hclaim.
  destruct (Hclaim 0%nat blank_teacher eq_refl) as (o & Ho & Hteachers & _).
  vm_compute in Ho. injection Ho as <-.
  vm_compute in Hteachers. discriminate Hteachers.
Qed.

(** An import of courses, one record with a blank teacher cell. *)
Lemma importData_wraps_ids_witness :
  ids_stored_by (H := quiet_host) wrap_truthy Courses [blank_teacher] Replace
    (world_of three_courses).
Proof.
  apply (importData_wraps_ids (H := quiet_host) Courses [blank_teacher] Replace
           (world_of three_courses)).
  left. reflexivity.
Defined.

(** C5, on a concrete run.  Courses are imported in replace mode; the remote
    delete answers with an error, the insert succeeds.  The local state is
    the local apply, and nothing is reported: no alert is scheduled and no
    error is logged. *)
Lemma importData_delete_error_unreported :
  let w := world_of three_courses in
  let w' := exec (importData (H := refusing_deletes) Courses [blank_teacher] Replace) w in
  let items := (processData (H := refusing_deletes) Courses [blank_teacher] 0).1 in
  remote (Host := refusing_deletes) 0 (replace_delete Courses)
    = Fulfilled (Err [("message", VStr "permission denied")])
  ∧ state w' = importData_state (H := refusing_deletes) Courses Replace items (state w)
  ∧ trace w' = [Request (replace_delete Courses); Request (Insert "courses" items)]
  ∧ alerted (trace w') = false.
Proof. by vm_compute. Qed.

Section Loader.

Context `{Host}.

Lemma recalculateAll_lookup courses sessions i c :
  courses !! i = Some c →
  recalculateAll courses sessions !! i
  = Some (withStats c (courseSessions sessions (get c "id"))).
Proof. intros Hc. unfold recalculateAll. by rewrite list_lookup_fmap, Hc. Qed.

(** C6.  The initial load sets the loading flag, issues the three reads
    (people, courses, sessions) before it waits for any of them, and clears
    the flag at the end, whether the reads settled or the combined wait
    failed.  When the three reads have settled: a read that failed leaves
    its collection empty and is reported by a warning; a read that
    succeeded fills its collection whatever happened to the others: people
    are split by type, sessions are stored as read, and every course is
    stored with the statistics computed from the stored sessions. *)
Theorem fetchData_loads (w : World) :
  let w' := exec fetchData w in
  let st' := state w' in
  let k := calls w in
  isLoading w' = false
  ∧ trace w'
    = trace w
      ++ [SetIsLoading true; Request (Select "people"); Request (Select "courses");
          Request (Select "sessions")]
      ++ load_report k ++ [SetIsLoading false]
  ∧ ∀ peopleRes coursesRes sessionsRes,
      remote k (Select "people") = Fulfilled peopleRes →
      remote (S k) (Select "courses") = Fulfilled coursesRes →
      remote (S (S k)) (Select "sessions") = Fulfilled sessionsRes →
      match peopleRes with
      | Err e =>
          teachers st' = [] ∧ assistants st' = []
          ∧ ConsoleWarn "Fetch People Error (Cloud):" (VObj e) ∈ load_report k
      | Ok people =>
          teachers st'
            = List.filter (λ p, strict_eq (get p "type") (VStr "Teacher")) people
          ∧ assistants st'
            = List.filter (λ p, strict_eq (get p "type") (VStr "TA")) people
      end
      ∧ match sessionsRes with
        | Err e =>
            sessions st' = []
            ∧ ConsoleWarn "Fetch Sessions Error (Cloud):" (VObj e) ∈ load_report k
        | Ok rows => sessions st' = rows
        end
      ∧ match coursesRes with
        | Err e =>
            courses st' = []
            ∧ ConsoleWarn "Fetch Courses Error (Cloud):" (VObj e) ∈ load_report k
        | Ok rows =>
            length (courses st') = length rows
            ∧ ∀ i c, rows !! i = Some c →
                ∃ c', courses st' !! i = Some c'
                  ∧ consistent (sessions st') c'
                  ∧ ∀ key, key ≠ "sessionCount" → key ≠ "totalHours" →
                      c' !! key = c !! key
        end.
Proof.
  simpl. split; [|split].
  - unfold fetchData. by run_exec.
  - unfold fetchData, load_report, read_warning.
    run_exec; rewrite <- ?app_assoc; done.
  - intros peopleRes coursesRes sessionsRes Hp Hc Hs.
    unfold load_report. rewrite Hp, Hc, Hs.
    assert (Hst : state (exec fetchData w)
      = fetchData_state (dataOrEmpty peopleRes) (dataOrEmpty coursesRes)
          (dataOrEmpty sessionsRes) (state w)).
    { unfold fetchData. run_step. rewrite Hp, Hc, Hs.
      destruct peopleRes, coursesRes, sessionsRes; by run_step. }
    rewrite Hst. simpl. split; [|split].
    + destruct peopleRes; simpl; [done|]. do 2 (split; [done|]). by left.
    + destruct sessionsRes; simpl; [done|]. split; [done|].
      rewrite !elem_of_app. right. right. apply list_elem_of_singleton. done.
    + destruct coursesRes as [rows|e]; simpl.
      * split; [apply length_map|]. intros i c Hi.
        eexists. split; [by apply recalculateAll_lookup|].
        split; [apply withStats_own_sessions|].
        intros key Hk1 Hk2. by apply withStats_other.
      * split; [done|]. apply elem_of_app. right. by left.
Qed.

End Loader.

(** The read of people fails and the two others succeed: teachers and
    assistants are empty, the session and the course are stored. *)
Lemma fetchData_loads_witness :
  let w' := exec (fetchData (H := people_denied)) (world_of three_courses) in
  teachers (state w') = [] ∧ assistants (state w') = []
  ∧ sessions (state w') = [session "s1" "A" 1]
  ∧ length (courses (state w')) = 1%nat.
Proof.
  destruct (fetchData_loads (H := people_denied) (world_of three_courses))
    as (_ & _ & Hreads).
  destruct (Hreads (Err [("message", VStr "permission denied")]) (Ok [course "A" 7 9])
              (Ok [session "s1" "A" 1]) eq_refl eq_refl eq_refl)
    as ((Ht & Ha & _) & Hs & Hlen & _).
  split; [exact Ht|]. split; [exact Ha|]. split; [exact Hs|exact Hlen].
Defined.

(** * Further properties of the store *)

Section Aggregator.

Context `{Host}.

Lemma withStats_twice c cs : withStats (withStats c cs) cs = withStats c cs.
Proof.
  unfold withStats. apply map_eq. intros key.
  destruct (decide (key = "totalHours")) as [->|Ht]; [by simplify_map_eq|].
  destruct (decide (key = "sessionCount")) as [->|Hs]; by simplify_map_eq.
Qed.

(** A course whose statistics are those of its sessions is not changed by
    recomputing them. *)
Lemma withStats_consistent_id sessions c :
  consistent sessions c → withStats c (courseSessions sessions (get c "id")) = c.
Proof.
  intros [Hcount Htotal]. unfold withStats.
  rewrite (insert_id c "sessionCount") by done. by apply insert_id.
Qed.

(** X1.  Recomputing the statistics of a course twice from the same
    sessions gives what recomputing them once gives. *)
Theorem recalculateCourseStats_idempotent
    (courses sessions : list (gmap string jsval)) (courseId : jsval) :
  recalculateCourseStats (recalculateCourseStats courses sessions courseId)
    sessions courseId
  = recalculateCourseStats courses sessions courseId.
Proof.
  unfold recalculateCourseStats. rewrite map_map. apply map_ext. intros c.
  destruct (strict_eq (get c "id") courseId) eqn:E; simpl.
  - rewrite get_withStats_id, E. simpl. apply withStats_twice.
  - by rewrite E.
Qed.

(** X2.  [recalculateCourseStats] keeps the number and the order of the
    courses; a course whose identifier is not the target is returned as it
    is; a course whose identifier is the target keeps every property but
    [sessionCount] and [totalHours], which become those of the sessions
    given. *)
Theorem recalculateCourseStats_target_only
    (courses sessions : list (gmap string jsval)) (courseId : jsval) :
  length (recalculateCourseStats courses sessions courseId) = length courses
  ∧ ∀ i c, courses !! i = Some c →
      ∃ c', recalculateCourseStats courses sessions courseId !! i = Some c'
        ∧ (strict_eq (get c "id") courseId = false → c' = c)
        ∧ (strict_eq (get c "id") courseId = true → consistent sessions c')
        ∧ ∀ key, key ≠ "sessionCount" → key ≠ "totalHours" → c' !! key = c !! key.
Proof.
  split; [apply length_map|]. intros i c Hc.
  eexists. split; [by apply recalculate_lookup|].
  destruct (strict_eq (get c "id") courseId) eqn:E; simpl.
  - split; [done|]. split; [intros _; by apply withStats_consistent|].
    intros key H1 H2. by apply withStats_other.
  - done.
Qed.

Lemma recalculateAll_consistent courses sessions :
  Forall (consistent sessions) (recalculateAll courses sessions).
Proof.
  unfold recalculateAll. apply Forall_fmap, Forall_forall.
  intros c _. apply withStats_own_sessions.
Qed.

(** [Number(s.durationHours) || 0] is never [NaN]. *)
Lemma hours_not_NaN s : hours s ≠ NaN.
Proof.
  unfold hours. destruct (Number (get s "durationHours")) eqn:E; simpl; try done.
  by destruct (negb (Qeq_bool q 0)).
Qed.



End Aggregator.

(** Course A of [two_sessions] is recomputed after its statistics went
    stale; course C is returned as it is. *)
Lemma recalculateCourseStats_target_only_witness :
  ∃ a, recalculateCourseStats (H := quiet_host)
         [course "A" 7 9; course "C" 1 2] (sessions two_sessions) (VStr "A")
       = [a; course "C" 1 2]
    ∧ consistent (H := quiet_host) (sessions two_sessions) a.
Proof.
  destruct (recalculateCourseStats_target_only (H := quiet_host)
    [course "A" 7 9; course "C" 1 2] (sessions two_sessions) (VStr "A"))
    as [_ Hall].
  destruct (Hall 0%nat (course "A" 7 9) eq_refl) as (a & Ha & _ & Hcons & _).
  exists a. split; [|by apply Hcons].
  vm_compute in Ha. injection Ha as <-. by vm_compute.
Defined.


Section SessionMutators.

Context `{Host}.

Lemma withStats_override c cs cs' : withStats (withStats c cs) cs' = withStats c cs'.
Proof.
  unfold withStats. apply map_eq. intros key.
  destruct (decide (key = "totalHours")) as [->|Ht]; [by simplify_map_eq|].
  destruct (decide (key = "sessionCount")) as [->|Hs]; by simplify_map_eq.
Qed.

Lemma recalculate_no_target courses sessions courseId :
  Forall (λ c, strict_eq (get c "id") courseId = false) courses →
  recalculateCourseStats courses sessions courseId = courses.
Proof.
  intros Hall. unfold recalculateCourseStats.
  induction courses as [|c l IH]; simpl; [done|].
  apply Forall_cons in Hall as [Hc Hl]. rewrite Hc. simpl. by rewrite IH.
Qed.

(** Recomputing consistent courses changes nothing. *)
Lemma recalculate_consistent_id courses sessions courseId :
  Forall (consistent sessions) courses →
  recalculateCourseStats courses sessions courseId = courses.
Proof.
  intros Hall. unfold recalculateCourseStats.
  induction courses as [|c l IH]; simpl; [done|].
  apply Forall_cons in Hall as [Hc Hl]. rewrite IH by done. f_equal.
  destruct (strict_eq (get c "id") courseId) eqn:E; simpl; [|done].
  rewrite <- (courseSessions_congr sessions _ _ E).
  by apply withStats_consistent_id.
Qed.

Lemma totalHours_snoc l s : totalHours (l ++ [s]) = number_add (totalHours l) (hours s).
Proof. unfold totalHours. by rewrite fold_left_app. Qed.

Lemma courseSessions_snoc l s courseId :
  strict_eq (get s "courseId") courseId = true →
  courseSessions (l ++ [s]) courseId = courseSessions l courseId ++ [s].
Proof.
  intros Hs. unfold courseSessions. rewrite List.filter_app. simpl. by rewrite Hs.
Qed.

(** X4.  [addSession s] gives every course that [s] references one session
    more than the stored sessions give it, and the rounded sum of their
    durations and that of [s]; the stored [sessionCount] and [totalHours]
    of the course are not read. *)
Theorem addSession_counts_one_more (s : gmap string jsval) (w : World) (i : nat)
    (c : gmap string jsval) :
  courses (state w) !! i = Some c →
  strict_eq (get c "id") (get s "courseId") = true →
  let mine := courseSessions (sessions (state w)) (get c "id") in
  ∃ c', courses (state (exec (addSession s) w)) !! i = Some c'
    ∧ c' !! "sessionCount" = Some (VNum (of_nat (S (length mine))))
    ∧ c' !! "totalHours"
      = Some (VNum (round2 (number_add (totalHours mine) (hours s)))).
Proof.
  intros Hc Hid. simpl. rewrite addSession_exec. simpl.
  eexists. split; [by apply recalculate_lookup|]. rewrite Hid. simpl.
  assert (Hs : strict_eq (get s "courseId") (get s "courseId") = true).
  { apply strict_eq_trans with (get c "id"); [by rewrite strict_eq_sym|done]. }
  rewrite (courseSessions_snoc _ _ _ Hs).
  rewrite <- (courseSessions_congr (sessions (state w)) _ _ Hid).
  unfold withStats, round2. split.
  - rewrite lookup_insert_ne by done. rewrite lookup_insert_eq.
    rewrite length_app. simpl. by rewrite Nat.add_1_r.
  - rewrite lookup_insert_eq. by rewrite totalHours_snoc.
Qed.

(** X5.  A session that references no course of the state is stored all
    the same, and no course is created or changed for it. *)
Theorem addSession_unknown_course (s : gmap string jsval) (w : World) :
  Forall (λ c, strict_eq (get c "id") (get s "courseId") = false)
    (courses (state w)) →
  let st' := state (exec (addSession s) w) in
  courses st' = courses (state w) ∧ sessions st' = sessions (state w) ++ [s].
Proof.
  intros Hnone. simpl. rewrite addSession_exec. simpl.
  split; [by apply recalculate_no_target|done].
Qed.

Lemma find_snoc_absent (f : gmap string jsval → bool) l x :
  Forall (λ y, f y = false) l → f x = true → List.find f (l ++ [x]) = Some x.
Proof.
  intros Hl Hx. induction l as [|y l IH]; simpl; [by rewrite Hx|].
  apply Forall_cons in Hl as [Hy Hl]. rewrite Hy. by apply IH.
Qed.

Lemma find_all_absent (f : gmap string jsval → bool) l :
  Forall (λ y, f y = false) l → List.find f l = None.
Proof.
  intros Hl. induction l as [|y l IH]; simpl; [done|].
  apply Forall_cons in Hl as [Hy Hl]. rewrite Hy. by apply IH.
Qed.

Lemma removeBy_snoc key v l x :
  strict_eq (get x key) v = true → removeBy key v (l ++ [x]) = removeBy key v l.
Proof.
  intros Hx. unfold removeBy. rewrite List.filter_app. simpl. rewrite Hx. simpl.
  apply app_nil_r.
Qed.

Lemma state_eq (st st' : AppState) :
  teachers st' = teachers st → assistants st' = assistants st →
  courses st' = courses st → sessions st' = sessions st →
  scheduleParams st' = scheduleParams st → st' = st.
Proof. destruct st, st'. simpl. by intros -> -> -> -> ->. Qed.

(** X6.  Adding a session under a fresh identifier and deleting it again
    gives back the state, when the statistics were consistent. *)
Theorem addSession_deleteSession_round_trip (s : gmap string jsval) (id : string)
    (w : World) :
  get s "id" = VStr id →
  Forall (λ x, strict_eq (get x "id") (VStr id) = false) (sessions (state w)) →
  stats_ok (state w) →
  state (exec (deleteSession id) (exec (addSession s) w)) = state w.
Proof.
  intros Hid Hfresh Hst. rewrite deleteSession_exec, addSession_exec.
  assert (Hs : strict_eq (get s "id") (VStr id) = true).
  { rewrite Hid. simpl. apply String.eqb_refl. }
  assert (Hrem : removeBy "id" (VStr id) (sessions (state w) ++ [s])
                 = sessions (state w)).
  { rewrite removeBy_snoc by done. apply removeBy_absent.
    intros x Hx. by apply (proj1 (Forall_forall _ _) Hfresh). }
  apply state_eq; simpl; try done.
  rewrite (find_snoc_absent _ _ s) by done. rewrite Hrem.
  unfold recalculateCourseStats. rewrite map_map.
  rewrite <- (map_id (courses (state w))) at 2. apply map_ext_Forall.
  eapply Forall_impl; [exact Hst|]. intros c Hc. simpl.
  destruct (strict_eq (get c "id") (get s "courseId")) eqn:E; simpl.
  - rewrite get_withStats_id, E. simpl. rewrite withStats_override.
    rewrite <- (courseSessions_congr (sessions (state w)) _ _ E).
    by apply withStats_consistent_id.
  - by rewrite E.
Qed.

(** X7.  [updateSession] never adds a session: when no stored session has
    the identifier of [s], the sessions are unchanged, and so is the whole
    state when the statistics were consistent. *)
Theorem updateSession_unknown_id (s : gmap string jsval) (w : World) :
  Forall (λ x, strict_eq (get x "id") (get s "id") = false) (sessions (state w)) →
  let st' := state (exec (updateSession s) w) in
  sessions st' = sessions (state w)
  ∧ (stats_ok (state w) → st' = state w).
Proof.
  intros Hnone. simpl. rewrite updateSession_exec.
  assert (Hrep : replaceById s (sessions (state w)) = sessions (state w)).
  { apply replaceById_absent. intros x Hx.
    by apply (proj1 (Forall_forall _ _) Hnone). }
  unfold updateSession_state. rewrite (find_all_absent _ _ Hnone), Hrep.
  split; [done|]. intros Hst. apply state_eq; simpl; try done.
  by apply recalculate_consistent_id.
Qed.

(** X8.  [deleteSession] of an identifier that no stored session has leaves
    the state as it is, statistics included; the remote delete is issued all
    the same. *)
Theorem deleteSession_unknown_id (id : string) (w : World) :
  Forall (λ x, strict_eq (get x "id") (VStr id) = false) (sessions (state w)) →
  let w' := exec (deleteSession id) w in
  state w' = state w
  ∧ ∃ rest, trace w'
      = trace w ++ Request (Delete "sessions" (FEq "id" (VStr id))) :: rest.
Proof.
  intros Hnone. simpl. split.
  - rewrite deleteSession_exec. unfold deleteSession_state.
    rewrite (find_all_absent _ _ Hnone).
    apply state_eq; simpl; try done.
    apply removeBy_absent. intros x Hx.
    by apply (proj1 (Forall_forall _ _) Hnone).
  - unfold deleteSession. run_exec; rewrite <- ?app_assoc; by eexists.
Qed.

End SessionMutators.

(** Session "s1" is added to course A of a state where A has no session. *)
Lemma addSession_counts_one_more_witness :
  ∃ c', courses (state (exec (addSession (H := quiet_host) (session "s1" "A" 1))
                          (world_of three_courses))) !! 0%nat = Some c'
    ∧ c' !! "sessionCount" = Some (num 1).
Proof.
  destruct (addSession_counts_one_more (H := quiet_host) (session "s1" "A" 1)
    (world_of three_courses) 0 (course "A" 0 0) eq_refl eq_refl)
    as (c' & Hc' & Hcount & _).
  exists c'. split; [exact Hc'|exact Hcount].
Defined.

(** A session of a course "Z" that the state does not have. *)
Lemma addSession_unknown_course_witness :
  courses (state (exec (addSession (H := quiet_host) (session "s1" "Z" 1))
                    (world_of three_courses)))
  = courses three_courses.
Proof.
  apply (addSession_unknown_course (H := quiet_host) (session "s1" "Z" 1)
           (world_of three_courses)).
  repeat constructor.
Defined.

(** Session "s3" is added to the two sessions of [two_sessions] and deleted
    again. *)
Lemma addSession_deleteSession_round_trip_witness :
  state (exec (deleteSession (H := quiet_host) "s3")
           (exec (addSession (H := quiet_host) (session "s3" "B" 4))
              (world_of two_sessions)))
  = two_sessions.
Proof.
  apply (addSession_deleteSession_round_trip (H := quiet_host)
           (session "s3" "B" 4) "s3" (world_of two_sessions)).
  - reflexivity.
  - repeat constructor.
  - repeat constructor.
Defined.

(** An update under the identifier "s7", which no session has. *)
Lemma updateSession_unknown_id_witness :
  state (exec (updateSession (H := quiet_host) (session "s7" "B" 4))
           (world_of two_sessions))
  = two_sessions.
Proof.
  apply (updateSession_unknown_id (H := quiet_host) (session "s7" "B" 4)
           (world_of two_sessions)).
  - repeat constructor.
  - repeat constructor.
Defined.

(** A delete under the identifier "s7", which no session has. *)
Lemma deleteSession_unknown_id_witness :
  state (exec (deleteSession (H := quiet_host) "s7") (world_of two_sessions))
  = two_sessions.
Proof.
  apply (deleteSession_unknown_id (H := quiet_host) "s7" (world_of two_sessions)).
  repeat constructor.
Defined.

Section Frames.

Context `{Host}.

Lemma recalculate_ids courses sessions courseId :
  map (λ c, get c "id") (recalculateCourseStats courses sessions courseId)
  = map (λ c, get c "id") courses.
Proof.
  unfold recalculateCourseStats. rewrite map_map. apply map_ext. intros c.
  destruct (negb _); [done|apply get_withStats_id].
Qed.

Lemma op_state_frame op st :
  teachers (op_state op st) = teachers st
  ∧ assistants (op_state op st) = assistants st
  ∧ scheduleParams (op_state op st) = scheduleParams st
  ∧ course_ids (op_state op st) = course_ids st.
Proof.
  unfold course_ids. destruct op as [s|s|id]; simpl; do 3 (split; [done|]).
  - apply recalculate_ids.
  - destruct (List.find _ _) as [old|]; [|apply recalculate_ids].
    destruct (negb _); [|apply recalculate_ids].
    by rewrite !recalculate_ids.
  - destruct (List.find _ _) as [old|]; [apply recalculate_ids|done].
Qed.

Lemma run_op_counters op w :
  calls (exec (run_op op) w) = S (calls w)
  ∧ uuids (exec (run_op op) w) = uuids w
  ∧ isLoading (exec (run_op op) w) = isLoading w.
Proof.
  destruct op as [s|s|id]; simpl;
    unfold addSession, updateSession, deleteSession; by run_exec.
Qed.

(** X9.  A sequence of add / update / delete operations on sessions never
    touches teachers, assistants or the schedule parameters, never adds,
    removes or renames a course, and issues one remote call per
    operation, however the calls settle. *)
Theorem session_ops_frame (ops : list session_op) (w : World) :
  let w' := run_ops ops w in
  teachers (state w') = teachers (state w)
  ∧ assistants (state w') = assistants (state w)
  ∧ scheduleParams (state w') = scheduleParams (state w)
  ∧ course_ids (state w') = course_ids (state w)
  ∧ calls w' = (calls w + length ops)%nat
  ∧ isLoading w' = isLoading w.
Proof.
  revert w. induction ops as [|op ops IH]; intros w; simpl.
  { by rewrite Nat.add_0_r. }
  destruct (IH (exec (run_op op) w)) as (Ht & Ha & Hp & Hc & Hn & Hl).
  destruct (op_state_frame op (state w)) as (Ht' & Ha' & Hp' & Hc').
  destruct (run_op_counters op w) as (Hn' & _ & Hl').
  rewrite Ht, Ha, Hp, Hc, Hn, Hl, run_op_state, Ht', Ha', Hp', Hc', Hn', Hl'.
  repeat split; try done. lia.
Qed.

Lemma removeBy_twice key v l : removeBy key v (removeBy key v l) = removeBy key v l.
Proof.
  unfold removeBy. induction l as [|x l IH]; simpl; [done|].
  destruct (negb (strict_eq (get x key) v)) eqn:E; simpl; [|done].
  by rewrite E, IH.
Qed.

Lemma removeBy_Forall key v l :
  Forall (λ x, strict_eq (get x key) v = false) (removeBy key v l).
Proof.
  apply Forall_forall. intros x Hx. unfold removeBy in Hx.
  apply list_elem_of_In, filter_In in Hx as [_ Hx]. by apply negb_true_iff.
Qed.

Lemma deleteCourse_exec id w :
  state (exec (deleteCourse id) w)
  = {| teachers := teachers (state w); assistants := assistants (state w);
       courses := removeBy "id" (VStr id) (courses (state w));
       sessions := removeBy "courseId" (VStr id) (sessions (state w));
       scheduleParams := scheduleParams (state w) |}.
Proof. unfold deleteCourse. by run_exec. Qed.

Lemma deletePerson_exec id w :
  state (exec (deletePerson id) w)
  = {| teachers := removeBy "id" (VStr id) (teachers (state w));
       assistants := removeBy "id" (VStr id) (assistants (state w));
       courses := courses (state w); sessions := sessions (state w);
       scheduleParams := scheduleParams (state w) |}.
Proof. unfold deletePerson. by run_exec. Qed.

(** Removing the sessions of one course does not change the sessions of
    another. *)
Lemma courseSessions_other_course l id courseId :
  strict_eq courseId (VStr id) ≠ true →
  courseSessions (removeBy "courseId" (VStr id) l) courseId
  = courseSessions l courseId.
Proof.
  intros Hother. unfold courseSessions, removeBy.
  induction l as [|s l IH]; simpl; [done|].
  destruct (strict_eq (get s "courseId") (VStr id)) eqn:Es; simpl.
  - rewrite IH. destruct (strict_eq (get s "courseId") courseId) eqn:Ec; [|done].
    exfalso. apply Hother.
    apply strict_eq_trans with (get s "courseId"); [by rewrite strict_eq_sym|done].
  - by rewrite IH.
Qed.

(** X10.  [deleteCourse id] keeps consistent statistics consistent, leaves no
    session that references [id], and, when every session referenced a
    course before, every remaining session references a remaining course. *)
Theorem deleteCourse_keeps_integrity (id : string) (w : World) :
  let st := state w in
  let st' := state (exec (deleteCourse id) w) in
  Forall (λ s, get s "courseId" ≠ VStr id) (sessions st')
  ∧ (stats_ok st → stats_ok st')
  ∧ (referenced st → referenced st').
Proof.
  simpl. rewrite deleteCourse_exec. unfold stats_ok, referenced. simpl.
  split; [|split].
  - apply Forall_forall. intros s Hs. by apply elem_of_removeBy in Hs as [_ Hs].
  - intros Hst. apply Forall_forall. intros c Hc.
    apply elem_of_removeBy in Hc as [Hc Hid].
    eapply consistent_same_sessions;
      [|by apply (proj1 (Forall_forall _ _) Hst)].
    apply courseSessions_other_course. intros Hcid. by apply Hid, strict_eq_VStr.
  - intros Href. apply Forall_forall. intros s Hs.
    apply elem_of_removeBy in Hs as [Hs Hid].
    apply (proj1 (Forall_forall _ _) Href) in Hs.
    apply Exists_exists in Hs as (c & Hc & Hsc).
    apply Exists_exists. exists c. split; [|done].
    apply elem_of_removeBy. split; [done|]. intros Hcid. apply Hid.
    apply strict_eq_VStr. rewrite <- Hcid. done.
Qed.

(** X11.  A second delete of the same identifier changes nothing in the
    local state: for a course with its sessions, for a person, and for a
    session. *)
Theorem deletes_idempotent (id : string) (w : World) :
  state (exec (deleteCourse id) (exec (deleteCourse id) w))
    = state (exec (deleteCourse id) w)
  ∧ state (exec (deletePerson id) (exec (deletePerson id) w))
    = state (exec (deletePerson id) w)
  ∧ state (exec (deleteSession id) (exec (deleteSession id) w))
    = state (exec (deleteSession id) w).
Proof.
  split; [|split].
  - rewrite !deleteCourse_exec. simpl. by rewrite !removeBy_twice.
  - rewrite !deletePerson_exec. simpl. by rewrite !removeBy_twice.
  - rewrite (deleteSession_exec id (exec _ _)).
    set (st := state (exec (deleteSession id) w)).
    assert (Hnone : Forall (λ x, strict_eq (get x "id") (VStr id) = false)
                      (sessions st)).
    { subst st. rewrite deleteSession_exec. simpl. apply removeBy_Forall. }
    unfold deleteSession_state. rewrite (find_all_absent _ _ Hnone).
    apply state_eq; simpl; try done.
    apply removeBy_absent. intros x Hx.
    by apply (proj1 (Forall_forall _ _) Hnone).
Qed.




End Frames.


(** Course A of [two_sessions] is deleted with its session. *)
Lemma deleteCourse_keeps_integrity_witness :
  stats_ok (H := quiet_host)
    (state (exec (deleteCourse (H := quiet_host) "A") (world_of two_sessions)))
  ∧ referenced
      (state (exec (deleteCourse (H := quiet_host) "A") (world_of two_sessions))).
Proof.
  destruct (deleteCourse_keeps_integrity (H := quiet_host) "A" (world_of two_sessions))
    as (_ & Hstats & Href).
  split.
  - apply Hstats. repeat constructor.
  - apply Href. unfold referenced. simpl.
    constructor; [by left|]. constructor; [|constructor].
    right. right. by left.
Defined.

Section ImportedRecords.

Context `{Host}.

Lemma processItem_counter type item k :
  (processItem type item k).2 = if truthy (get item "id") then k else S k.
Proof. unfold processItem. by destruct (truthy (get item "id")). Qed.

Lemma processData_spec type data k :
  (processData type data k).2 = (k + draws data)%nat
  ∧ length (processData type data k).1 = length data
  ∧ ∀ i item, data !! i = Some item →
      (processData type data k).1 !! i
      = Some (processItem type item (k + draws (take i data))).1.
Proof.
  revert k. induction data as [|x data IH]; intros k.
  { simpl. split; [by rewrite Nat.add_0_r|]. split; [done|]. by intros i item. }
  simpl. pose proof (processItem_counter type x k) as Hk.
  destruct (processItem type x k) as [o k1] eqn:Ho. simpl in Hk.
  destruct (IH k1) as (Hcount & Hlen & Hlookup).
  destruct (processData type data k1) as [os k2] eqn:Hos. simpl in *.
  unfold draws in *. simpl.
  split; [|split].
  - rewrite Hcount, Hk. destruct (truthy (get x "id")); simpl; lia.
  - by rewrite Hlen.
  - intros [|i] item Hi; simpl in *.
    + injection Hi as ->. by rewrite Nat.add_0_r, Ho.
    + rewrite (Hlookup i item Hi). do 3 f_equal. rewrite Hk.
      destruct (truthy (get x "id")); simpl; lia.
Qed.

Lemma importData_uuids type data m w :
  uuids (exec (importData type data m) w) = (processData type data (uuids w)).2.
Proof.
  unfold importData, importData_sync, importData_failed. run_step.
  destruct (processData type data (uuids w)) as [items k].
  destruct m, type; simpl; by run_exec.
Qed.

Lemma importData_stored_exact type data m w i item :
  data !! i = Some item →
  stored_for type m w (exec (importData type data m) w) i
    (processItem type item (uuids w + draws (take i data))).1.
Proof.
  intros Hi. destruct (processData_spec type data (uuids w)) as (_ & _ & Hlookup).
  unfold stored_for. simpl.
  rewrite importData_exec_state, collection_importData_state.
  destruct m; simpl; [|by apply Hlookup].
  rewrite lookup_app_r by lia.
  replace (_ + i - _)%nat with i by lia. by apply Hlookup.
Qed.

Lemma processItem_id type item k :
  (processItem type item k).1 !! "id"
  = Some (if truthy (get item "id") then get item "id" else VStr (randomUUID k)).
Proof.
  unfold processItem. destruct (truthy (get item "id")), type; simpl;
    by simplify_map_eq.
Qed.

Lemma processItem_other type item k key :
  key ∉ rewritten type → (processItem type item k).1 !! key = item !! key.
Proof.
  intros Hkey. unfold processItem.
  destruct (truthy (get item "id")), type; simpl in *; unfold stray_fields in Hkey;
    repeat (apply not_elem_of_cons in Hkey as [? Hkey]); by simplify_map_eq.
Qed.

(** X13.  Whatever the state before, and in both modes, an import of
    sessions leaves every course with the statistics of the sessions it
    leaves. *)
Theorem importData_sessions_restores_stats (data : list (gmap string jsval))
    (m : mode) (w : World) :
  stats_ok (state (exec (importData Sessions data m) w)).
Proof.
  rewrite importData_exec_state. unfold stats_ok. simpl.
  apply recalculateAll_consistent.
Qed.

(** X14.  A course is imported with [sessionCount] 0 and [totalHours] 0,
    whatever the input record says and whatever sessions reference it; an
    import of courses leaves the sessions as they are. *)
Theorem importData_courses_zero_stats (data : list (gmap string jsval)) (m : mode)
    (w : World) (i : nat) (item : gmap string jsval) :
  data !! i = Some item →
  let w' := exec (importData Courses data m) w in
  sessions (state w') = sessions (state w)
  ∧ ∃ o, stored_for Courses m w w' i o
      ∧ o !! "sessionCount" = Some (VNum zero)
      ∧ o !! "totalHours" = Some (VNum zero).
Proof.
  intros Hi. simpl. split; [rewrite importData_exec_state; by destruct m|].
  eexists. split; [by apply importData_stored_exact|].
  unfold processItem. destruct (truthy (get item "id")); simpl; by simplify_map_eq.
Qed.

(** X15.  An import stores one record per input record.  A record keeps its
    identifier when that is truthy; the others receive the identifiers
    that [crypto.randomUUID] returns, in the order of the input, one call
    per record without identifier. *)
Theorem importData_assigns_ids (type : kind) (data : list (gmap string jsval))
    (m : mode) (w : World) :
  let w' := exec (importData type data m) w in
  uuids w' = (uuids w + draws data)%nat
  ∧ length (collection type (state w'))
    = (match m with Replace => 0 | Append => length (collection type (state w)) end
       + length data)%nat
  ∧ ∀ i item, data !! i = Some item →
      ∃ o, stored_for type m w w' i o
        ∧ o !! "id"
          = Some (if truthy (get item "id") then get item "id"
                  else VStr (randomUUID (uuids w + draws (take i data)))).
Proof.
  simpl. destruct (processData_spec type data (uuids w)) as (Hcount & Hlen & _).
  split; [by rewrite importData_uuids|]. split.
  - rewrite importData_exec_state, collection_importData_state.
    destruct m; simpl; [rewrite length_app|]; by rewrite Hlen.
  - intros i item Hi. eexists. split; [by apply importData_stored_exact|].
    apply processItem_id.
Qed.

(** X16.  Normalization touches the properties of its schema only: any
    other property of an input record is stored as it was given, for
    every kind of import. *)
Theorem importData_keeps_other_fields (type : kind)
    (data : list (gmap string jsval)) (m : mode) (w : World) (i : nat)
    (item : gmap string jsval) :
  data !! i = Some item →
  ∃ o, stored_for type m w (exec (importData type data m) w) i o
    ∧ ∀ key, key ∉ rewritten type → o !! key = item !! key.
Proof.
  intros Hi. eexists. split; [by apply importData_stored_exact|].
  intros key Hkey. by apply processItem_other.
Qed.

(** X17.  Every course or session is stored with [teacherIds] and
    [assistantIds] that are sequences; every session is stored with
    [sequence] and [durationHours] that are numbers: 0 for a falsy input,
    and what [Number] makes of the input otherwise. *)
Theorem importData_schema (type : kind) (data : list (gmap string jsval))
    (m : mode) (w : World) (i : nat) (item : gmap string jsval) :
  data !! i = Some item →
  type = Courses ∨ type = Sessions →
  ∃ o, stored_for type m w (exec (importData type data m) w) i o
    ∧ (∃ ts, o !! "teacherIds" = Some (VArr ts))
    ∧ (∃ as', o !! "assistantIds" = Some (VArr as'))
    ∧ (type = Sessions →
         o !! "sequence"
           = Some (VNum (if truthy (get item "sequence")
                         then Number (get item "sequence") else zero))
         ∧ o !! "durationHours"
           = Some (VNum (if truthy (get item "durationHours")
                         then Number (get item "durationHours") else zero))).
Proof.
  intros Hi Htype. eexists. split; [by apply importData_stored_exact|].
  destruct (processItem_ids type item (uuids w + draws (take i data)) Htype)
    as [Hts Has].
  split; [|split].
  - rewrite Hts. unfold wrap_truthy.
    destruct (item !! "teacherIds") as [[]|]; try destruct (truthy _); by eexists.
  - rewrite Has. unfold wrap_truthy.
    destruct (item !! "assistantIds") as [[]|]; try destruct (truthy _); by eexists.
  - intros Hs. by apply processItem_session.
Qed.

(** X18.  An import of one kind leaves the collections of the other kinds
    as they are; an import of sessions rewrites the statistics of the
    courses, and keeps the courses themselves. *)
Theorem importData_frame (type : kind) (data : list (gmap string jsval))
    (m : mode) (w : World) :
  let st := state w in
  let st' := state (exec (importData type data m) w) in
  scheduleParams st' = scheduleParams st
  ∧ (type ≠ Teachers → teachers st' = teachers st)
  ∧ (type ≠ Assistants → assistants st' = assistants st)
  ∧ (type ≠ Sessions → sessions st' = sessions st)
  ∧ (type ≠ Courses → course_ids st' = course_ids st)
  ∧ (type ≠ Courses → type ≠ Sessions → courses st' = courses st).
Proof.
  simpl. rewrite importData_exec_state. unfold course_ids.
  destruct type; simpl; repeat split; try done.
  intros _. unfold recalculateAll. rewrite map_map. apply map_ext.
  intros c. apply get_withStats_id.
Qed.

(** X19.  An import of no record: in replace mode the collection is
    emptied; in append mode the state is unchanged, unless sessions are
    imported, and the insert of no row is issued all the same. *)
Theorem importData_empty (type : kind) (w : World) :
  collection type (state (exec (importData type [] Replace) w)) = []
  ∧ (type ≠ Sessions → state (exec (importData type [] Append) w) = state w)
  ∧ trace (exec (importData type [] Append) w)
    = trace w ++ Request (Insert (tableName type) []) ::
        after_insert (calls w) (Insert (tableName type) []).
Proof.
  split; [|split].
  - rewrite importData_exec_state, collection_importData_state. done.
  - intros Htype. rewrite importData_exec_state.
    destruct type; simpl; try done; apply state_eq; simpl; try done;
      apply app_nil_r.
  - by rewrite importData_trace.
Qed.

End ImportedRecords.

(** A course record that claims 5 sessions is imported next to the courses
    of [two_sessions]. *)
Lemma importData_courses_zero_stats_witness :
  ∃ o, stored_for Courses Append (world_of two_sessions)
         (exec (importData (H := quiet_host) Courses [course "A" 5 9] Append)
            (world_of two_sessions)) 0 o
    ∧ o !! "sessionCount" = Some (VNum zero).
Proof.
  destruct (importData_courses_zero_stats (H := quiet_host) [course "A" 5 9] Append
    (world_of two_sessions) 0 (course "A" 5 9) eq_refl)
    as (_ & o & Ho & Hcount & _).
  exists o. split; [exact Ho|exact Hcount].
Defined.

(** Of three people the second has no identifier: it receives the first
    identifier drawn. *)
Lemma importData_assigns_ids_witness :
  ∃ o, stored_for Teachers Replace (world_of two_people)
         (exec (importData (H := quiet_host) Teachers mixed_people Replace)
            (world_of two_people)) 1 o
    ∧ o !! "id" = Some (VStr "a-uuid").
Proof.
  destruct (importData_assigns_ids (H := quiet_host) Teachers mixed_people Replace
    (world_of two_people)) as (_ & _ & Hids).
  destruct (Hids 1%nat stray_person eq_refl) as (o & Ho & Hid).
  exists o. split; [exact Ho|exact Hid].
Defined.

(** The name of a person is none of the properties that normalization
    rewrites. *)
Lemma importData_keeps_other_fields_witness :
  ∃ o, stored_for Teachers Replace (world_of two_people)
         (exec (importData (H := quiet_host) Teachers mixed_people Replace)
            (world_of two_people)) 1 o
    ∧ o !! "name" = Some (VStr "Cid").
Proof.
  destruct (importData_keeps_other_fields (H := quiet_host) Teachers mixed_people
    Replace (world_of two_people) 1 stray_person eq_refl) as (o & Ho & Hkeep).
  exists o. split; [exact Ho|]. rewrite Hkeep; [reflexivity|].
  unfold rewritten, stray_fields. rewrite !not_elem_of_cons.
  repeat split; try discriminate. apply not_elem_of_nil.
Defined.

(** A session without [sequence], [durationHours], [teacherIds] and
    [assistantIds]. *)
Lemma importData_schema_witness :
  ∃ o, stored_for Sessions Replace (world_of three_courses)
         (exec (importData (H := quiet_host) Sessions [bare_session] Replace)
            (world_of three_courses)) 0 o
    ∧ (∃ ts, o !! "teacherIds" = Some (VArr ts)).
Proof.
  destruct (importData_schema (H := quiet_host) Sessions [bare_session] Replace
    (world_of three_courses) 0 bare_session eq_refl (or_intror eq_refl))
    as (o & Ho & Hts & _).
  exists o. split; [exact Ho|exact Hts].
Defined.

(** An import of teachers leaves assistants and sessions as they are. *)
Lemma importData_frame_witness :
  let st' := state (exec (importData (H := quiet_host) Teachers mixed_people Append)
                      (world_of two_people)) in
  assistants st' = assistants two_people ∧ sessions st' = sessions two_people.
Proof.
  destruct (importData_frame (H := quiet_host) Teachers mixed_people Append
    (world_of two_people)) as (_ & _ & Ha & Hs & _).
  split; [apply Ha|apply Hs]; discriminate.
Defined.

(** An import of no course in append mode. *)
Lemma importData_empty_witness :
  state (exec (importData (H := quiet_host) Courses [] Append)
           (world_of two_sessions))
  = two_sessions.
Proof.
  destruct (importData_empty (H := quiet_host) Courses (world_of two_sessions))
    as (_ & Hsame & _).
  apply Hsame. discriminate.
Defined.

Section People.

Context `{Host}.

Lemma fetchData_exec_state w peopleRes coursesRes sessionsRes :
  remote (calls w) (Select "people") = Fulfilled peopleRes →
  remote (S (calls w)) (Select "courses") = Fulfilled coursesRes →
  remote (S (S (calls w))) (Select "sessions") = Fulfilled sessionsRes →
  state (exec fetchData w)
  = fetchData_state (dataOrEmpty peopleRes) (dataOrEmpty coursesRes)
      (dataOrEmpty sessionsRes) (state w).
Proof.
  intros Hp Hc Hs. unfold fetchData. run_step. rewrite Hp, Hc, Hs.
  destruct peopleRes, coursesRes, sessionsRes; by run_step.
Qed.

Lemma elem_of_ofType t people p :
  p ∈ ofType t people ↔ p ∈ people ∧ get p "type" = VStr t.
Proof.
  unfold ofType. rewrite !list_elem_of_In, filter_In. by rewrite strict_eq_VStr.
Qed.


(** X21.  After a load whose reads have settled, a person is a teacher
    exactly when it was read with type 'Teacher' and an assistant exactly
    when it was read with type 'TA': nobody is both, and a person of
    another type, or without type, is in neither collection. *)
Theorem fetchData_partitions_people (w : World)
    (people : list (gmap string jsval)) (coursesRes sessionsRes : response) :
  remote (calls w) (Select "people") = Fulfilled (Ok people) →
  remote (S (calls w)) (Select "courses") = Fulfilled coursesRes →
  remote (S (S (calls w))) (Select "sessions") = Fulfilled sessionsRes →
  let st' := state (exec fetchData w) in
  ∀ p, (p ∈ teachers st' ↔ p ∈ people ∧ get p "type" = VStr "Teacher")
     ∧ (p ∈ assistants st' ↔ p ∈ people ∧ get p "type" = VStr "TA")
     ∧ ¬ (p ∈ teachers st' ∧ p ∈ assistants st').
Proof.
  intros Hp Hc Hs. simpl. rewrite (fetchData_exec_state w _ _ _ Hp Hc Hs). simpl.
  intros p. rewrite !elem_of_ofType. split; [done|]. split; [done|].
  intros [[_ Ht] [_ Ha]]. congruence.
Qed.

(** X22.  [addPerson] puts a person whose type is not 'Teacher' among the
    assistants, whatever the type is; when the type is not 'TA' either, a
    load that reads the same person back puts it in neither collection. *)
Theorem addPerson_unknown_type (p : gmap string jsval) (w w2 : World)
    (people : list (gmap string jsval)) (coursesRes sessionsRes : response) :
  get p "type" ≠ VStr "Teacher" →
  get p "type" ≠ VStr "TA" →
  remote (calls w2) (Select "people") = Fulfilled (Ok people) →
  remote (S (calls w2)) (Select "courses") = Fulfilled coursesRes →
  remote (S (S (calls w2))) (Select "sessions") = Fulfilled sessionsRes →
  assistants (state (exec (addPerson p) w)) = assistants (state w) ++ [p]
  ∧ teachers (state (exec (addPerson p) w)) = teachers (state w)
  ∧ (p ∉ teachers (state (exec fetchData w2)))
  ∧ (p ∉ assistants (state (exec fetchData w2))).
Proof.
  intros Ht Ha Hp Hc Hs.
  assert (Hno : strict_eq (get p "type") (VStr "Teacher") = false).
  { apply not_true_iff_false. by rewrite strict_eq_VStr. }
  rewrite (fetchData_exec_state w2 _ _ _ Hp Hc Hs). simpl.
  rewrite !elem_of_ofType.
  unfold addPerson. rewrite Hno. run_exec; repeat split; try done; by intros [_ ?].
Qed.


(** X24.  The address of the remote service is never empty: it is the value
    of [VITE_SUPABASE_URL] when that is set to a truthy value, and the
    fallback address when the environment is missing, the variable is
    missing, or the variable is empty. *)
Theorem supabaseUrl_never_empty (env : option (gmap string jsval)) :
  truthy (supabaseUrl env) = true
  ∧ (truthy (getEnv env "VITE_SUPABASE_URL") = true →
       supabaseUrl env = getEnv env "VITE_SUPABASE_URL")
  ∧ (truthy (getEnv env "VITE_SUPABASE_URL") = false →
       supabaseUrl env = VStr FALLBACK_URL)
  ∧ supabaseUrl None = VStr FALLBACK_URL
  ∧ (∀ vars, vars !! "VITE_SUPABASE_URL" = Some (VStr "") →
       supabaseUrl (Some vars) = VStr FALLBACK_URL).
Proof.
  unfold supabaseUrl, or_else.
  split; [|split; [|split; [|split]]].
  - by destruct (truthy (getEnv env "VITE_SUPABASE_URL")) eqn:E.
  - by intros ->.
  - by intros ->.
  - done.
  - intros vars Hv. unfold getEnv, get. by rewrite Hv.
Qed.

End People.

Section OtherCourses.

Context `{Host}.

Lemma recalculate_lookup_other courses sessions courseId i c :
  courses !! i = Some c →
  strict_eq (get c "id") courseId = false →
  recalculateCourseStats courses sessions courseId !! i = Some c.
Proof.
  intros Hc Hid. rewrite (recalculate_lookup _ _ _ i c Hc). by rewrite Hid.
Qed.

(** X27.  An operation on a session rewrites the courses it concerns and no
    other: a course is returned as it is by [addSession s] and by
    [updateSession s] when its identifier is neither [s.courseId] nor the
    [courseId] of the session stored under the identifier of [s], and by
    [deleteSession id] when its identifier is not the [courseId] of the
    session stored under [id]. *)
Theorem session_ops_touch_own_courses (s : gmap string jsval) (id : string)
    (w : World) (i : nat) (c : gmap string jsval) :
  courses (state w) !! i = Some c →
  let stored v := List.find (λ x, strict_eq (get x "id") v) (sessions (state w)) in
  let other v :=
    ∀ old, stored v = Some old → strict_eq (get c "id") (get old "courseId") = false in
  (strict_eq (get c "id") (get s "courseId") = false →
     courses (state (exec (addSession s) w)) !! i = Some c)
  ∧ (strict_eq (get c "id") (get s "courseId") = false → other (get s "id") →
     courses (state (exec (updateSession s) w)) !! i = Some c)
  ∧ (other (VStr id) →
     courses (state (exec (deleteSession id) w)) !! i = Some c).
Proof.
  intros Hc. simpl.
  rewrite addSession_exec, updateSession_exec, deleteSession_exec.
  unfold updateSession_state, deleteSession_state. simpl.
  split; [|split].
  - intros Hnew. by apply recalculate_lookup_other.
  - intros Hnew Hold.
    destruct (List.find _ _) as [old|]; [|by apply recalculate_lookup_other].
    destruct (negb _); [|by apply recalculate_lookup_other].
    apply recalculate_lookup_other; [|by apply Hold].
    by apply recalculate_lookup_other.
  - intros Hold.
    destruct (List.find _ _) as [old|]; [|done].
    apply recalculate_lookup_other; [done|by apply Hold].
Qed.

End OtherCourses.

(** Session "s1" of course A is moved to course B: course C is returned as
    it is. *)
Lemma session_ops_touch_own_courses_witness :
  courses (state (exec (updateSession (H := quiet_host) (session "s1" "B" 1))
                    (world_of two_sessions))) !! 2%nat
  = Some (course "C" 1 2).
Proof.
  destruct (session_ops_touch_own_courses (H := quiet_host) (session "s1" "B" 1)
    "s1" (world_of two_sessions) 2 (course "C" 1 2) eq_refl) as (_ & Hupdate & _).
  apply Hupdate; [reflexivity|].
  intros old Hold. vm_compute in Hold. injection Hold as <-. reflexivity.
Defined.


(** Cid, read with type 'Guest', is in neither collection. *)
Lemma fetchData_partitions_people_witness :
  let st' := state (exec (fetchData (H := three_people)) (world_of three_courses)) in
  ¬ (person "p3" "Guest" "Cid" ∈ teachers st'
     ∧ person "p3" "Guest" "Cid" ∈ assistants st').
Proof.
  apply (fetchData_partitions_people (H := three_people) (world_of three_courses)
           [person "p1" "Teacher" "Ann"; person "p2" "TA" "Bob";
            person "p3" "Guest" "Cid"] (Ok []) (Ok []) eq_refl eq_refl eq_refl).
Defined.

(** Cid, of type 'Guest', is added: he is listed among the assistants, and
    he is listed nowhere after a load that reads him back. *)
Lemma addPerson_unknown_type_witness :
  assistants (state (exec (addPerson (H := three_people) (person "p3" "Guest" "Cid"))
                       (world_of two_people)))
  = [person "p2" "TA" "Bob"; person "p3" "Guest" "Cid"]
  ∧ person "p3" "Guest" "Cid"
    ∉ assistants (state (exec (fetchData (H := three_people))
                           (world_of three_courses))).
Proof.
  destruct (addPerson_unknown_type (H := three_people) (person "p3" "Guest" "Cid")
    (world_of two_people) (world_of three_courses)
    [person "p1" "Teacher" "Ann"; person "p2" "TA" "Bob"; person "p3" "Guest" "Cid"]
    (Ok []) (Ok [])) as (Hadd & _ & _ & Hload);
    [by vm_compute|by vm_compute|reflexivity..|].
  split; [exact Hadd|exact Hload].
Defined.

(** An environment whose variable is set to the empty string. *)
Lemma supabaseUrl_never_empty_witness :
  supabaseUrl (Some {["VITE_SUPABASE_URL" := VStr ""]}) = VStr FALLBACK_URL
  ∧ supabaseUrl (Some {["VITE_SUPABASE_URL" := VStr "http://localhost:54321"]})
    = VStr "http://localhost:54321".
Proof.
  split.
  - destruct (supabaseUrl_never_empty (Some {["VITE_SUPABASE_URL" := VStr ""]}))
      as (_ & _ & Hfallback & _).
    apply Hfallback. reflexivity.
  - destruct (supabaseUrl_never_empty
                (Some {["VITE_SUPABASE_URL" := VStr "http://localhost:54321"]}))
      as (_ & Hset & _).
    rewrite Hset; reflexivity.
Defined.

(** ** The root component *)

(** While the first check is pending there is no debug session, and there
    is none next to a session of the authentication service. *)
Lemma App_reachable_invariant a :
  App.reachable a →
  (App.checkingAuth a = true → App.debugSession a = None)
  ∧ (is_Some (App.session a) → App.debugSession a = None).
Proof.
  induction 1 as [|a a' Ha [IH1 IH2] Hstep]; [done|].
  destruct Hstep as [s a Hc|s a|a email isDebug Hr|a Hr]; simpl.
  - split; [done|]. intros _. by apply IH1.
  - destruct s; [done|]. split; [done|]. by intros [? [=]].
  - unfold App.handleLogout. destruct (App.debugSession a) eqn:E; simpl; [done|].
    rewrite E. done.
  - unfold App.render, App.activeSession in Hr.
    destruct (App.checkingAuth a); [done|].
    destruct (App.session a); [done|].
    split; [done|]. by intros [? [=]].
Qed.

(** X25.  In every state that [App] can reach, a user who is signed in sees
    the spinner or the dashboard of the own session, never flagged as debug
    mode; the debug flag is shown on the debug session only. *)
Theorem App_session_never_debug (a : App.AuthState) (email : string) :
  App.reachable a →
  App.session a = Some email →
  App.render a = App.Spinner ∨ App.render a = App.Dashboard email false.
Proof.
  intros Hreach Hs. destruct (App_reachable_invariant a Hreach) as [_ Hinv].
  unfold App.render, App.activeSession. rewrite Hs, Hinv by (by eexists).
  destruct (App.checkingAuth a); [by left|by right].
Qed.

(** X26.  The logout of a dashboard in debug mode drops the debug session,
    calls no sign-out and leads to the login screen; the logout of another
    dashboard calls the sign-out and leaves the state to the
    authentication service. *)
Theorem App_logout (a : App.AuthState) (email : string) (isDebug : bool) :
  App.reachable a →
  App.render a = App.Dashboard email isDebug →
  (App.handleLogout a).2 = negb isDebug
  ∧ (isDebug = true → App.render (App.handleLogout a).1 = App.Login)
  ∧ (isDebug = false → (App.handleLogout a).1 = a).
Proof.
  intros Hreach Hr. destruct (App_reachable_invariant a Hreach) as [_ Hinv].
  unfold App.render, App.activeSession, App.handleLogout in *.
  destruct (App.checkingAuth a) eqn:Hc; [done|].
  destruct (App.debugSession a) as [d|] eqn:Hd; simpl.
  - destruct (App.session a) as [s|] eqn:Hs.
    { by specialize (Hinv (ex_intro _ s eq_refl)). }
    injection Hr as <- <-. simpl. by rewrite ?Hs.
  - destruct (App.session a) as [s|] eqn:Hs; [|done].
    injection Hr as <- <-. done.
Qed.

(** The first check finds no session, the debug login is used, then a real
    sign-in arrives. *)
Lemma App_session_never_debug_witness :
  App.render
    (App.onAuthStateChange (Some "ann@school.org")
       (App.handleDebugLogin (App.onGetSession None App.initial)))
  = App.Dashboard "ann@school.org" false.
Proof.
  destruct (App_session_never_debug
    (App.onAuthStateChange (Some "ann@school.org")
       (App.handleDebugLogin (App.onGetSession None App.initial)))
    "ann@school.org") as [Hspin|Hdash].
  - eapply App.reachable_step; [|apply App.step_authStateChange].
    eapply App.reachable_step; [|by apply App.step_debugLogin].
    eapply App.reachable_step; [apply App.reachable_initial|].
    by apply App.step_getSession.
  - reflexivity.
  - discriminate Hspin.
  - exact Hdash.
Defined.

(** The first check finds no session, the debug login is used, then the
    logout. *)
Lemma App_logout_witness :
  App.render
    (App.handleLogout (App.handleDebugLogin (App.onGetSession None App.initial))).1
  = App.Login.
Proof.
  apply (App_logout (App.handleDebugLogin (App.onGetSession None App.initial))
           "debug@local.dev" true).
  - eapply App.reachable_step; [|by apply App.step_debugLogin].
    eapply App.reachable_step; [apply App.reachable_initial|].
    by apply App.step_getSession.
  - reflexivity.
  - reflexivity.
Defined.
